(** * Livepeer inference adapter (src/src/index.ts)

    A shallow embedding of [callLivepeerLLM] and of the three model handlers
    of [livepeerPlugin.models] (TEXT_SMALL, TEXT_LARGE, TEXT_EMBEDDING),
    followed by the properties of the adapter.

    Conventions.
    - A JavaScript string is the list of its UTF-16 code units.
    - A JavaScript number is a binary64 float (Rocq's primitive floats).
    - [undefined] is [None]; an optional property is an [option].
    - [process.env] is a finite map from variable names to strings.
    - An asynchronous function is a computation that leaves a trace of the
      log lines it wrote and of the HTTP requests it sent, and ends in a
      value or in a thrown exception. A log line is recorded with its level
      and message; the structured payload of the logger call is left out.
    - [parseInt] and [parseFloat] are parameters of the development. *)

From Stdlib Require Import ZArith NArith List Bool Ascii String Floats Uint63 DecimalString.
From stdpp Require Import base option list gmap strings.
Import ListNotations.

Set Warnings "-inexact-float,-register-all".
Local Open Scope list_scope.

(** ** JavaScript strings *)

Module JS.

(** A UTF-16 code unit, [0 .. 65535]. *)
Abbreviation code_unit := N.

Abbreviation jsstring := (list N).

(** The string value of a source literal (all literals of the file are
    ASCII, one code unit per character). *)
Definition js (s : string) : jsstring :=
  map N_of_ascii (String.list_ascii_of_string s).

Definition code_unit_eqb (a b : code_unit) : bool := N.eqb a b.

(** [strip_prefix pat s] is [Some rest] when [s = pat ++ rest]. *)
Fixpoint strip_prefix (pat s : jsstring) : option jsstring :=
  match pat, s with
  | [], _ => Some s
  | _ :: _, [] => None
  | p :: pat', c :: s' =>
      if code_unit_eqb p c then strip_prefix pat' s' else None
  end.

(** [s.replace(/pat/, repl)] for a pattern that is a literal, non-empty
    sequence of characters and has no [g] flag: the leftmost occurrence of
    [pat] is replaced, the rest of the string is kept. *)
Fixpoint replace_first (pat repl s : jsstring) : jsstring :=
  match strip_prefix pat s with
  | Some rest => repl ++ rest
  | None =>
      match s with
      | [] => []
      | c :: s' => c :: replace_first pat repl s'
      end
  end.

(** [s.replace(/\/$/, '')]: without the [m] flag [$] only matches at the end
    of the input, so at most the last character is removed. *)
Fixpoint strip_trailing_slash (s : jsstring) : jsstring :=
  match s with
  | [] => []
  | c :: s' =>
      match s' with
      | [] => if code_unit_eqb c 47%N then [] else [c]
      | _ :: _ => c :: strip_trailing_slash s'
      end
  end.

(** WhiteSpace and LineTerminator code points of ECMAScript, the characters
    [String.prototype.trim] removes. *)
Definition is_whitespace (c : code_unit) : bool :=
  ((9 <=? c) && (c <=? 13) ||
   (c =? 32) || (c =? 160) || (c =? 5760) ||
   (8192 <=? c) && (c <=? 8202) ||
   (c =? 8232) || (c =? 8233) || (c =? 8239) || (c =? 8287) ||
   (c =? 12288) || (c =? 65279))%N.

Fixpoint trim_start (s : jsstring) : jsstring :=
  match s with
  | [] => []
  | c :: s' => if is_whitespace c then trim_start s' else s
  end.

Definition trim (s : jsstring) : jsstring :=
  rev (trim_start (rev (trim_start s))).

(** [String(n)] for a non-negative integer. *)
Definition decimal (n : N) : jsstring :=
  js (NilEmpty.string_of_uint (N.to_uint n)).

(** ** Truthiness ([ToBoolean]) and the operators built on it *)

Class Truthy (A : Type) := truthy : A -> bool.

#[global] Instance truthy_string : Truthy jsstring :=
  fun s => match s with [] => false | _ :: _ => true end.

#[global] Instance truthy_number : Truthy float :=
  fun x => negb (PrimFloat.is_zero x || PrimFloat.is_nan x).

#[global] Instance truthy_bool : Truthy bool := fun b => b.

(** A possibly [undefined] value is truthy when it is defined and truthy. *)
#[global] Instance truthy_option {A} `{Truthy A} : Truthy (option A) :=
  fun o => match o with Some x => truthy x | None => false end.

(** [a || b] where both sides may be [undefined]. *)
Definition or_else {A} `{Truthy A} (a b : option A) : option A :=
  if truthy a then a else b.

(** [a || d] where the right-hand side is always defined. *)
Definition or_default {A} `{Truthy A} (a : option A) (d : A) : A :=
  match a with
  | Some x => if truthy x then x else d
  | None => d
  end.

(** [a ?? d] and a destructuring default [{ a = d }]: only [undefined]
    (and, for [??], [null]) gives way to [d]. *)
Definition nullish_default {A} (a : option A) (d : A) : A :=
  match a with Some x => x | None => d end.

End JS.
Export JS.


(** ** JSON values, as [res.json()] produces them *)

Inductive json_value : Type :=
| JNull
| JBool (b : bool)
| JNumber (x : float)
| JString (s : jsstring)
| JArray (items : list json_value)
| JObject (members : list (jsstring * json_value)).

#[global] Instance truthy_json : Truthy json_value :=
  fun v =>
    match v with
    | JNull => false
    | JBool b => b
    | JNumber x => truthy x
    | JString s => truthy s
    | JArray _ | JObject _ => true
    end.

(** The value of the own property [k] of a parsed object. When a name occurs
    twice in the document, [JSON.parse] keeps the later value. *)
Fixpoint member (k : jsstring) (ms : list (jsstring * json_value))
  : option json_value :=
  match ms with
  | [] => None
  | (k', v) :: ms' =>
      match member k ms' with
      | Some w => Some w
      | None => if decide (k = k') then Some v else None
      end
  end.

(** The property accesses of [callLivepeerLLM]: [.choices], [[0]],
    [.message], [.delta] and [.content]. *)
Inductive property := p_choices | p_0 | p_message | p_delta | p_content.

Definition property_name (p : property) : jsstring :=
  match p with
  | p_choices => js "choices"
  | p_0 => js "0"
  | p_message => js "message"
  | p_delta => js "delta"
  | p_content => js "content"
  end.

(** [v[p]] for a value that is neither [null] nor [undefined]. Arrays and
    strings have the index [0] and none of the four names; numbers and
    booleans have none of the five. *)
Definition get (v : json_value) (p : property) : option json_value :=
  match v with
  | JObject ms => member (property_name p) ms
  | JArray items =>
      match p with p_0 => items !! 0%nat | _ => None end
  | JString s =>
      match p, s with p_0, c :: _ => Some (JString [c]) | _, _ => None end
  | JNull | JBool _ | JNumber _ => None
  end.

(** Optional chaining [v?.p]. *)
Definition opt_get (v : option json_value) (p : property)
  : option json_value :=
  match v with
  | None | Some JNull => None
  | Some w => get w p
  end.

Notation "v ?. p" := (opt_get v p) (at level 25, left associativity).

(** ** Requests, responses and the host runtime *)

(** The object [requestBody] of [callLivepeerLLM] and its messages. *)
Module Body.
Inductive Role := system | user.
Record Message := { role : Role; content : jsstring }.
Record t := {
  model : jsstring;
  messages : list Message;
  max_tokens : float;
  temperature : float;
  stream : bool }.
End Body.

(** The second argument of [runtime.fetch]. [body] holds the object that is
    handed to [JSON.stringify]. *)
Record RequestInit := {
  method : jsstring;
  headers : list (string * jsstring);
  body : Body.t }.

(** What the adapter reads of a fetch response: the [ok] flag, the status
    code, the result of [text()] and the result of [json()] ([None] when the
    body is not JSON and [json()] rejects). *)
Record Response := {
  ok : bool;
  status : N;
  text : jsstring;
  json : option json_value }.

(** The part of [IAgentRuntime] the adapter uses. *)
Record IAgentRuntime := {
  getSetting : string -> option jsstring;
  character_system : option jsstring;
  fetch : jsstring -> RequestInit -> Response }.

(** The parameter object of a text handler. [others] are the further
    properties the caller's object carries; the destructuring patterns of
    the file bind [prompt], [maxTokens] and [temperature] only. *)
Record GenerateTextParams := {
  prompt : jsstring;
  maxTokens : option float;
  temperature : option float;
  others : list (string * json_value) }.

(** ** Effects: log lines, HTTP requests, exceptions *)

Inductive level := debug | info | warn | error.

Inductive event :=
| Log (lvl : level) (line : jsstring)
| Fetch (url : jsstring) (init : RequestInit).

Inductive exn :=
| Error (msg : jsstring)
| TypeError (msg : jsstring)
| SyntaxError.

Definition IO (A : Type) : Type := list event * (exn + A).

#[global] Instance IO_ret : MRet IO := fun A x => ([], inr x).

#[global] Instance IO_bind : MBind IO :=
  fun A B k m =>
    match m with
    | (tr, inl e) => (tr, inl e)
    | (tr, inr a) => let '(tr', r) := k a in (tr ++ tr', r)
    end.

Definition throw {A} (e : exn) : IO A := ([], inl e).

Definition log (lvl : level) (line : string) : IO unit :=
  ([Log lvl (js line)], inr tt).

(** [await runtime.fetch(url, init)] *)
Definition runtime_fetch (runtime : IAgentRuntime) (url : jsstring)
    (init : RequestInit) : IO Response :=
  ([Fetch url init], inr (fetch runtime url init)).

Definition trace {A} (m : IO A) : list event := fst m.
Definition outcome {A} (m : IO A) : exn + A := snd m.

(** The requests of a trace, in the order they were sent. *)
Fixpoint requests (tr : list event) : list (jsstring * RequestInit) :=
  match tr with
  | [] => []
  | Fetch url init :: tr' => (url, init) :: requests tr'
  | Log _ _ :: tr' => requests tr'
  end.

(** The [Authorization] header of a request. *)
Fixpoint header (name : string) (hs : list (string * jsstring))
  : option jsstring :=
  match hs with
  | [] => None
  | (n, v) :: hs' => if String.eqb n name then Some v else header name hs'
  end.

(** ** The adapter *)

Section Adapter.

(** [process.env], and the built-in parsers of numeric strings. *)
Variable env : gmap string jsstring.
Variable parseInt parseFloat : jsstring -> float.

(** [process.env.NAME ? parse(process.env.NAME) : fallback] *)
Definition env_number (name : string) (parse : jsstring -> float)
    (fallback : float) : float :=
  if truthy (env !! name)
  then parse (nullish_default (env !! name) [])
  else fallback.

Definition marker : jsstring :=
  js "<|start_header_id|>assistant<|end_header_id|>" ++ [10; 10]%N.

(** Lines 116-131: from the parsed response to the returned text. *)
Definition extract_text (parsed : json_value) : IO jsstring :=
  let content := Some parsed ?. p_choices ?. p_0 ?. p_message ?. p_content in
  content ←
    (if negb (truthy content)
        && truthy (Some parsed ?. p_choices ?. p_0 ?. p_delta ?. p_content)
     then
       _ ← log warn "Falling back to delta.content for Livepeer response";
       mret (Some parsed ?. p_choices ?. p_0 ?. p_delta ?. p_content)
     else mret content);
  if negb (truthy content) then
    _ ← log error "Invalid response format from Livepeer (final check): ";
    throw (Error (js "Invalid response format from Livepeer"))
  else
    match content with
    | Some (JString s) => mret (replace_first marker [] s)
    | _ => throw (TypeError (js "content.replace is not a function"))
    end.

(** Lines 98-132: from the response to the returned text. *)
Definition handle_response (res : Response) : IO jsstring :=
  if negb (ok res) then
    let text := text res in
    _ ← log error "Livepeer request failed:";
    throw (Error (js "Livepeer request failed (" ++ decimal (status res)
                  ++ js "): " ++ text))
  else
    parsed ← match json res with
             | Some v => mret v
             | None => throw SyntaxError
             end;
    _ ← log info "Livepeer response received:";
    extract_text parsed.

(** Lines 32-132. *)
Definition callLivepeerLLM (runtime : IAgentRuntime)
    (params : GenerateTextParams) : IO jsstring :=
  let prompt := prompt params in
  let maxTokens :=
    nullish_default (maxTokens params)
      (env_number "LIVEPEER_MAX_TOKENS" parseInt 2048) in
  let temperature :=
    nullish_default (temperature params)
      (env_number "LIVEPEER_TEMPERATURE" parseFloat 0.6) in
  let endpoint :=
    or_else (env !! "LIVEPEER_GATEWAY_URL")
            (getSetting runtime "LIVEPEER_GATEWAY_URL") in
  match endpoint with
  | None | Some [] =>
      throw (Error (js
        "Livepeer Gateway URL is not defined (LIVEPEER_GATEWAY_URL)"))
  | Some endpoint =>
      let model :=
        or_default
          (or_else (env !! "LIVEPEER_LARGE_MODEL") (env !! "LIVEPEER_MODEL"))
          (js "meta-llama/Meta-Llama-3.1-8B-Instruct") in
      _ ← log info "Livepeer LLM Request:";
      let requestBody := {|
        Body.model := model;
        Body.messages := [
          {| Body.role := Body.system;
             Body.content :=
               or_default (character_system runtime)
                 (js "You are a helpful assistant powered by Livepeer Gateway") |};
          {| Body.role := Body.user; Body.content := prompt |} ];
        Body.max_tokens := maxTokens;
        Body.temperature := temperature;
        Body.stream := false |} in
      _ ← log info "Livepeer request body:";
      let url := strip_trailing_slash endpoint ++ js "/llm" in
      let init := {|
        method := js "POST";
        headers := [
          ("accept", js "application/json");
          ("Content-Type", js "application/json");
          ("Authorization",
            js "Bearer " ++
            or_default
              (or_else (env !! "LIVEPEER_API_KEY")
                       (getSetting runtime "LIVEPEER_API_KEY"))
              (js "ElizaV2-llm-default")) ];
        body := requestBody |} in
      res ← runtime_fetch runtime url init;
      handle_response res
  end.

(** Lines 171-180 and 181-190: the two text handlers. *)
Definition handler_TEXT_SMALL (runtime : IAgentRuntime)
    (params : GenerateTextParams) : IO jsstring :=
  callLivepeerLLM runtime {|
    prompt := prompt params;
    maxTokens := Some (or_default (maxTokens params)
                         (env_number "LIVEPEER_MAX_TOKENS" parseInt 512));
    temperature := Some (or_default (temperature params)
                         (env_number "LIVEPEER_TEMPERATURE" parseFloat 0.6));
    others := [] |}.

Definition handler_TEXT_LARGE (runtime : IAgentRuntime)
    (params : GenerateTextParams) : IO jsstring :=
  callLivepeerLLM runtime {|
    prompt := prompt params;
    maxTokens := Some (or_default (maxTokens params)
                         (env_number "LIVEPEER_MAX_TOKENS" parseInt 2048));
    temperature := Some (or_default (temperature params)
                         (env_number "LIVEPEER_TEMPERATURE" parseFloat 0.6));
    others := [] |}.

(** The two text entries of [livepeerPlugin.models]. *)
Inductive TextModelType := TEXT_SMALL | TEXT_LARGE.

Definition generate (t : TextModelType)
  : IAgentRuntime -> GenerateTextParams -> IO jsstring :=
  match t with
  | TEXT_SMALL => handler_TEXT_SMALL
  | TEXT_LARGE => handler_TEXT_LARGE
  end.

End Adapter.

(** ** The placeholder embedding (lines 191-211) *)

Inductive TextEmbeddingInput :=
| EmbedNull
| EmbedString (s : jsstring)
| EmbedObject (text_property : option (option jsstring)).
(** [EmbedObject None] is an object without a [text] property,
    [EmbedObject (Some None)] one whose [text] is [undefined] or [null]. *)

#[global] Instance truthy_input : Truthy TextEmbeddingInput :=
  fun p =>
    match p with
    | EmbedNull => false
    | EmbedString s => truthy s
    | EmbedObject _ => true
    end.

Definition DIMS : nat := 384.

(** [new Array(DIMS).fill(0)] *)
Definition zeros : list float := replicate DIMS 0%float.

(** [text.charCodeAt(i)], as a number. *)
Definition charCode (c : code_unit) : float :=
  PrimFloat.of_uint63 (Uint63.of_Z (Z.of_N c)).

(** The loop of lines 205-208, entered at index [i] with the characters
    [text] still to read. *)
Fixpoint accumulate (text : jsstring) (i : nat) (vec : list float)
  : list float :=
  match text with
  | [] => vec
  | c :: text' =>
      let idx := (i mod DIMS)%nat in
      accumulate text' (S i)
        (alter (fun v => (v + charCode c / 65535)%float) idx vec)
  end.

Definition handler_TEXT_EMBEDDING (_runtime : IAgentRuntime)
    (params : TextEmbeddingInput) : IO (list float) :=
  if negb (truthy params)
     || match params with EmbedObject None => true | _ => false end
  then mret zeros
  else
    let text :=
      match params with
      | EmbedString s => s
      | EmbedObject (Some t) => nullish_default t []
      | EmbedObject None | EmbedNull => []
      end in
    if negb (truthy (trim text)) then mret zeros
    else
      let vec := accumulate text 0 zeros in
      _ ← log debug "Generated placeholder embedding (local, matched): ";
      mret vec.

(** ** Vocabulary of the specification *)

(** The error taxonomy names the throw sites of [callLivepeerLLM]. *)
Definition ConfigurationError (e : exn) : Prop :=
  e = Error (js "Livepeer Gateway URL is not defined (LIVEPEER_GATEWAY_URL)").

Definition UpstreamError_status (st : N) (body_text : jsstring) (e : exn)
  : Prop :=
  e = Error (js "Livepeer request failed (" ++ decimal st ++ js "): "
             ++ body_text).

Definition UpstreamError_format (e : exn) : Prop :=
  e = Error (js "Invalid response format from Livepeer").

(** The fallback to [delta.content] is visible in the log. *)
Definition used_delta (tr : list event) : Prop :=
  In (Log warn (js "Falling back to delta.content for Livepeer response")) tr.

(** [occurs pat s]: the literal [pat] occurs somewhere in [s]. *)
Definition occurs (pat s : jsstring) : Prop :=
  exists before after, s = before ++ pat ++ after.

(** Entry [j] of the embedding as the specification words it: the sum, from
    zero and in reading order, of [charCode / 65535] over the positions of
    the text that are congruent to [j] modulo 384. The positions of [text]
    are counted from [i]. *)
Fixpoint entry_sum (text : jsstring) (i j : nat) (acc : float) : float :=
  match text with
  | [] => acc
  | c :: text' =>
      entry_sum text' (S i) j
        (if (i mod DIMS =? j)%nat then (acc + charCode c / 65535)%float
         else acc)
  end.

Definition embedding_spec (text : jsstring) : list float :=
  (fun j => entry_sum text 0 j 0%float) <$> seq 0 DIMS.

(** [all_from n c P]: [P] holds of the [n] numbers from [c] on. *)
Fixpoint all_from (n : nat) (c : N) (P : N -> bool) : bool :=
  match n with
  | O => true
  | S n' => P c && all_from n' (N.succ c) P
  end.

(** The text an embedding input carries, when it carries one. *)
Definition input_text (p : TextEmbeddingInput) : option jsstring :=
  match p with
  | EmbedString s => Some s
  | EmbedObject (Some (Some s)) => Some s
  | EmbedNull | EmbedObject _ => None
  end.

Definition whitespace_only (s : jsstring) : Prop :=
  Forall (fun c => is_whitespace c = true) s.

(** The response the runtime gave to the first request of a trace. *)
Definition response (runtime : IAgentRuntime) (tr : list event)
  : option Response :=
  match requests tr with
  | (url, init) :: _ => Some (fetch runtime url init)
  | [] => None
  end.

(** [message.content] and [delta.content] of the first choice. *)
Definition message_content (parsed : json_value) : option json_value :=
  Some parsed ?. p_choices ?. p_0 ?. p_message ?. p_content.

Definition delta_content (parsed : json_value) : option json_value :=
  Some parsed ?. p_choices ?. p_0 ?. p_delta ?. p_content.

(** The body of the first request of a trace. *)
Definition sent_body (tr : list event) : option Body.t :=
  match requests tr with
  | (_, init) :: _ => Some (body init)
  | [] => None
  end.

(** [resolves first second v]: [v] is what [first || second] yields when it
    yields a non-empty string, the first source winning over the second. *)
Definition resolves (first second : option jsstring) (v : jsstring) : Prop :=
  v <> [] /\
  (first = Some v \/ truthy first = false /\ second = Some v).

(** [without_trailing_slash e base]: [base] is [e] without its final slash,
    or [e] itself when [e] does not end in a slash. *)
Definition without_trailing_slash (e base : jsstring) : Prop :=
  e = base ++ js "/" \/ e = base /\ last e <> Some 47%N.

(** ** Sample hosts *)

Module Sample.

(** A parser of short digit strings. On a string of one to fifteen decimal
    digits it returns what both [parseInt] and [parseFloat] return. *)
Fixpoint digits (s : jsstring) (acc : N) : option N :=
  match s with
  | [] => Some acc
  | c :: s' =>
      if ((48 <=? c) && (c <=? 57))%N
      then digits s' (10 * acc + (c - 48))%N
      else None
  end.

Definition parseDigits (s : jsstring) : float :=
  match s, digits s 0 with
  | _ :: _, Some n =>
      if (length s <=? 15)%nat
      then PrimFloat.of_uint63 (Uint63.of_Z (Z.of_N n))
      else PrimFloat.nan
  | _, _ => PrimFloat.nan
  end.

Definition no_env : gmap string jsstring := ∅.

Definition gateway_env : gmap string jsstring :=
  {[ "LIVEPEER_GATEWAY_URL" := js "http://gateway.example/" ]}.

(** A runtime without settings and persona whose gateway always answers
    [res]. *)
Definition answering (res : Response) : IAgentRuntime := {|
  getSetting := fun _ => None;
  character_system := None;
  fetch := fun _ _ => res |}.

(** The same runtime with the gateway URL and API key as settings. *)
Definition with_settings (res : Response) : IAgentRuntime := {|
  getSetting := fun k =>
    if String.eqb k "LIVEPEER_GATEWAY_URL" then Some (js "http://setting.example")
    else if String.eqb k "LIVEPEER_API_KEY" then Some (js "setting-key")
    else None;
  character_system := None;
  fetch := fun _ _ => res |}.

(** A 200 response whose body is [{"choices": [choice]}]. *)
Definition completion (choice : json_value) : Response := {|
  ok := true;
  status := 200;
  text := [];
  json := Some (JObject [(js "choices", JArray [choice])]) |}.

Definition with_message (s : jsstring) : json_value :=
  JObject [(js "message", JObject [(js "content", JString s)])].

Definition with_delta (s : jsstring) : json_value :=
  JObject [(js "delta", JObject [(js "content", JString s)])].

Definition with_both (m d : jsstring) : json_value :=
  JObject [(js "message", JObject [(js "content", JString m)]);
           (js "delta", JObject [(js "content", JString d)])].

Definition failure (st : N) (body_text : jsstring) : Response := {|
  ok := false; status := st; text := body_text; json := None |}.

Definition ask (s : string) : GenerateTextParams := {|
  prompt := js s; maxTokens := None; temperature := None; others := [] |}.

(** An environment that also sets the two numeric variables. *)
Definition tuned_env : gmap string jsstring :=
  <[ "LIVEPEER_TEMPERATURE" := js "1" ]>
    (<[ "LIVEPEER_MAX_TOKENS" := js "64" ]> gateway_env).

(** An environment with an API key and both model names. *)
Definition full_env : gmap string jsstring :=
  <[ "LIVEPEER_API_KEY" := js "env-key" ]>
    (<[ "LIVEPEER_LARGE_MODEL" := js "large-model" ]>
       (<[ "LIVEPEER_MODEL" := js "small-model" ]> gateway_env)).

Definition hello : Response := completion (with_message (js "Hello")).

(** A caller that asks for greedy decoding. *)
Definition greedy : GenerateTextParams := {|
  prompt := js "hi"; maxTokens := Some 100%float;
  temperature := Some 0%float; others := [] |}.

(** A caller that passes a token budget of zero. *)
Definition zero_budget : GenerateTextParams := {|
  prompt := js "hi"; maxTokens := Some 0%float;
  temperature := Some 0.5%float; others := [] |}.

(** A caller that passes a gateway URL of its own, under several names. *)
Definition with_endpoint : GenerateTextParams := {|
  prompt := js "hi"; maxTokens := None; temperature := None;
  others := [
    ("endpoint", JString (js "http://explicit.example"));
    ("gatewayUrl", JString (js "http://explicit.example"));
    ("LIVEPEER_GATEWAY_URL", JString (js "http://explicit.example")) ] |}.

(** The request [generate] sends for [ask "hi"] under [gateway_env]. *)
Definition plain_request (budget : float) : RequestInit := {|
  method := js "POST";
  headers := [("accept", js "application/json");
              ("Content-Type", js "application/json");
              ("Authorization", js "Bearer ElizaV2-llm-default")];
  body := {|
    Body.model := js "meta-llama/Meta-Llama-3.1-8B-Instruct";
    Body.messages := [
      {| Body.role := Body.system;
         Body.content :=
           js "You are a helpful assistant powered by Livepeer Gateway" |};
      {| Body.role := Body.user; Body.content := js "hi" |}];
    Body.max_tokens := budget;
    Body.temperature := 0.6;
    Body.stream := false |} |}.

End Sample.

(** ** The project around the adapter *)

(** [prompt.substring(0, 100) + (prompt.length > 100 ? '...' : '')], the
    [userPrompt] field of the first log line (line 60). *)
Definition userPrompt (prompt : jsstring) : jsstring :=
  take 100 prompt ++ (if (100 <? length prompt)%nat then js "..." else []).

(** [character.plugins] (lines 233-246): the names of the plugins the
    runtime loads for the character, chosen by the environment. *)
Definition character_plugins (env : gmap string jsstring) : list string :=
  ["@elizaos/plugin-sql"]
  ++ (if truthy (env !! "OPENAI_API_KEY") then ["@elizaos/plugin-openai"] else [])
  ++ (if truthy (env !! "ANTHROPIC_API_KEY") then ["@elizaos/plugin-anthropic"] else [])
  ++ (if negb (truthy (env !! "OPENAI_API_KEY"))
         && negb (truthy (env !! "ANTHROPIC_API_KEY"))
         && negb (truthy (env !! "LIVEPEER_GATEWAY_URL"))
      then ["@elizaos/plugin-local-ai"] else [])
  ++ (if truthy (env !! "DISCORD_API_TOKEN") then ["@elizaos/plugin-discord"] else [])
  ++ (if truthy (env !! "TWITTER_USERNAME") then ["@elizaos/plugin-twitter"] else [])
  ++ (if truthy (env !! "TELEGRAM_BOT_TOKEN") then ["@elizaos/plugin-telegram"] else [])
  ++ (if negb (truthy (env !! "IGNORE_BOOTSTRAP")) then ["@elizaos/plugin-bootstrap"] else []).

(** The plugin objects of the file. *)
Inductive PluginObject := livepeerPlugin.

(** [projectAgent.plugins] (lines 347-351). *)
Definition projectAgent_plugins (env : gmap string jsstring)
  : list PluginObject :=
  if truthy (env !! "LIVEPEER_GATEWAY_URL") then [livepeerPlugin] else [].

(** [leftmost pat s before after]: [before ++ pat ++ after] splits [s] at
    the first place where [pat] occurs. *)
Definition leftmost (pat s before after : jsstring) : Prop :=
  s = before ++ pat ++ after /\
  forall b a : jsstring, s = b ++ pat ++ a -> (length before <= length b)%nat.

(** The first choice of a parsed body, [json?.choices?.[0]]. *)
Definition first_choice (parsed : json_value) : option json_value :=
  Some parsed ?. p_choices ?. p_0.

(** ** Further sample hosts *)

Module Hosts.

(** A 200 response whose body is not JSON. *)
Definition html_page : Response := {|
  ok := true; status := 200; text := js "<html>"; json := None |}.

(** A 200 response whose body is [{"choices": []}]. *)
Definition no_choices : Response := {|
  ok := true; status := 200; text := [];
  json := Some (JObject [(js "choices", JArray [])]) |}.

(** A choice whose [message.content] is the number 5. *)
Definition numeric_content : json_value :=
  JObject [(js "message", JObject [(js "content", JNumber 5)])].

(** A runtime with a persona that answers [res]. *)
Definition persona (res : Response) : IAgentRuntime := {|
  getSetting := fun _ => None;
  character_system := Some (js "You are Eliza.");
  fetch := fun _ _ => res |}.

(** An environment with provider keys for two hosted models. *)
Definition hosted_env : gmap string jsstring :=
  <[ "OPENAI_API_KEY" := js "sk-1" ]>
    (<[ "ANTHROPIC_API_KEY" := js "sk-2" ]> ∅).

(** A text with the marker in its middle, and its response. *)
Definition marked_text : jsstring := js "Hello " ++ marker ++ js "world".

Definition marked : Response :=
  Sample.completion (Sample.with_message marked_text).

(** [gateway_env] with an API key, and with a variable the adapter does not
    read. *)
Definition keyed_env : gmap string jsstring :=
  <[ "LIVEPEER_API_KEY" := js "secret" ]> Sample.gateway_env.

Definition home_env : gmap string jsstring :=
  <[ "HOME" := js "/root" ]> Sample.gateway_env.

(** A block of 384 letters A. *)
Definition block : jsstring := replicate 384 65%N.

(** A prompt of 150 letters A. *)
Definition long_prompt : jsstring := replicate 150 65%N.

End Hosts.

(** * Properties *)

(** ** Strings *)

Lemma strip_prefix_app (pat rest : jsstring) :
  strip_prefix pat (pat ++ rest) = Some rest.
Proof.
  induction pat as [|p pat IH]; [by destruct rest|].
  cbn. unfold code_unit_eqb. by rewrite N.eqb_refl.
Qed.

Lemma strip_prefix_Some (pat s rest : jsstring) :
  strip_prefix pat s = Some rest -> s = pat ++ rest.
Proof.
  revert s. induction pat as [|p pat IH]; intros s H.
  - destruct s; cbn in *; congruence.
  - destruct s as [|c s]; cbn in H; [discriminate|].
    unfold code_unit_eqb in H.
    destruct (N.eqb_spec p c) as [->|]; [|discriminate].
    cbn. f_equal. by apply IH.
Qed.

Lemma replace_first_unfold (pat repl s : jsstring) :
  replace_first pat repl s =
  match strip_prefix pat s with
  | Some rest => repl ++ rest
  | None => match s with [] => [] | c :: s' => c :: replace_first pat repl s' end
  end.
Proof. by destruct s. Qed.

(** A leading occurrence is the leftmost one. *)
Lemma replace_first_prefix (pat repl rest : jsstring) :
  replace_first pat repl (pat ++ rest) = repl ++ rest.
Proof. by rewrite replace_first_unfold, strip_prefix_app. Qed.

(** A string without any occurrence is returned as it is. *)
Lemma replace_first_absent (pat repl s : jsstring) :
  ~ occurs pat s -> replace_first pat repl s = s.
Proof.
  induction s as [|c s IH]; intros Hno; rewrite replace_first_unfold.
  - destruct (strip_prefix pat []) as [rest|] eqn:E; [|done].
    exfalso. apply Hno. exists [], rest. cbn. by apply strip_prefix_Some.
  - destruct (strip_prefix pat (c :: s)) as [rest|] eqn:E.
    + exfalso. apply Hno. exists [], rest. cbn. by apply strip_prefix_Some.
    + f_equal. apply IH. intros (b & a & ->).
      apply Hno. by exists (c :: b), a.
Qed.

(** An occurrence behind characters that cannot start the pattern is
    removed as well. *)
Lemma replace_first_inner (p : code_unit) (pat repl before after : jsstring) :
  Forall (fun c => c <> p) before ->
  replace_first (p :: pat) repl (before ++ (p :: pat) ++ after)
  = before ++ repl ++ after.
Proof.
  induction 1 as [|c before Hc _ IH].
  - exact (replace_first_prefix (p :: pat) repl after).
  - change ((c :: before) ++ (p :: pat) ++ after)
      with (c :: (before ++ (p :: pat) ++ after)).
    rewrite replace_first_unfold.
    assert (strip_prefix (p :: pat) (c :: (before ++ (p :: pat) ++ after))
            = None) as ->.
    { cbn [strip_prefix]. unfold code_unit_eqb.
      by destruct (N.eqb_spec p c) as [->|_]. }
    by rewrite IH.
Qed.

Lemma strip_trailing_slash_snoc (s : jsstring) :
  strip_trailing_slash (s ++ js "/") = s.
Proof.
  induction s as [|c s IH]; [done|].
  cbn [app strip_trailing_slash]. rewrite IH.
  by destruct s.
Qed.

Lemma strip_trailing_slash_other (s : jsstring) :
  last s <> Some 47%N -> strip_trailing_slash s = s.
Proof.
  induction s as [|c s IH]; [done|].
  destruct s as [|d s]; intros Hl.
  - cbn. unfold code_unit_eqb. destruct (N.eqb_spec c 47) as [->|]; [|done].
    by destruct Hl.
  - change (c :: strip_trailing_slash (d :: s) = c :: d :: s).
    f_equal. by apply IH.
Qed.

Lemma trim_start_cases (s : jsstring) :
  trim_start s = [] /\ whitespace_only s \/
  exists c r, trim_start s = c :: r /\ is_whitespace c = false.
Proof.
  induction s as [|c s IH]; [left; split; [done | constructor]|].
  cbn. destruct (is_whitespace c) eqn:E.
  - destruct IH as [[-> Hw]|IH]; [left; split; [done | by constructor] | by right].
  - right. by exists c, s.
Qed.

Lemma trim_start_whitespace (s : jsstring) :
  whitespace_only s -> trim_start s = [].
Proof. induction 1 as [|c s Hc _ IH]; [done|]. cbn. by rewrite Hc. Qed.

(** [!text.trim()] holds exactly for the empty and the whitespace-only texts. *)
Lemma trim_empty_iff (s : jsstring) :
  trim s = [] <-> whitespace_only s.
Proof.
  unfold trim. split.
  - intros H. destruct (trim_start_cases s) as [[_ Hw]|(c & r & E & Hc)]; [done|].
    exfalso. rewrite E in H.
    apply (f_equal (@rev N)) in H. rewrite rev_involutive in H. cbn in H.
    destruct (trim_start_cases (rev (c :: r))) as [[_ Hw]|(d & r' & E' & _)].
    + apply Forall_rev in Hw. rewrite rev_involutive in Hw.
      inversion Hw as [|x l Hx Hl]; subst. congruence.
    + cbn in E'. congruence.
  - intros Hw. by rewrite (trim_start_whitespace s Hw).
Qed.

Lemma truthy_trim (s : jsstring) :
  truthy (trim s) = false <-> whitespace_only s.
Proof.
  rewrite <- trim_empty_iff. by destruct (trim s).
Qed.

(** ** Running the adapter *)

Section Run.

Variable env : gmap string jsstring.
Variable parseInt parseFloat : jsstring -> float.

Implicit Types (rt : IAgentRuntime) (p : GenerateTextParams).
Implicit Types (t : TextModelType) (res : Response).

Local Abbreviation call := (callLivepeerLLM env parseInt parseFloat).
Local Abbreviation gen := (generate env parseInt parseFloat).
Local Abbreviation endpoint_of rt :=
  (or_else (env !! "LIVEPEER_GATEWAY_URL")
           (getSetting rt "LIVEPEER_GATEWAY_URL")).

Lemma resolves_or_else (first second : option jsstring) (v : jsstring) :
  resolves first second v <-> or_else first second = Some v /\ v <> [].
Proof.
  unfold resolves, or_else. split.
  - intros (Hv & [-> | (Hf & ->)]).
    + by destruct v.
    + by rewrite Hf.
  - intros (H & Hv). split; [done|].
    destruct (truthy first) eqn:E; [by left | by right].
Qed.

Lemma unresolved_or_else (first second : option jsstring) :
  truthy first = false -> truthy second = false ->
  or_else first second = None \/ or_else first second = Some [].
Proof.
  unfold or_else. intros -> H.
  destruct second as [[|c s]|]; cbn in H; auto; discriminate.
Qed.

Lemma call_unresolved rt p :
  truthy (env !! "LIVEPEER_GATEWAY_URL") = false ->
  truthy (getSetting rt "LIVEPEER_GATEWAY_URL") = false ->
  call rt p =
  throw (Error (js "Livepeer Gateway URL is not defined (LIVEPEER_GATEWAY_URL)")).
Proof.
  intros H1 H2. unfold callLivepeerLLM.
  by destruct (unresolved_or_else _ _ H1 H2) as [-> | ->].
Qed.

(** With an endpoint, the call logs twice, sends one request and hands the
    response to [handle_response]. *)
Lemma call_resolved rt p (e : jsstring) :
  endpoint_of rt = Some e -> e <> [] ->
  let url := strip_trailing_slash e ++ js "/llm" in
  let init := {|
    method := js "POST";
    headers := [
      ("accept", js "application/json");
      ("Content-Type", js "application/json");
      ("Authorization",
        js "Bearer " ++
        or_default
          (or_else (env !! "LIVEPEER_API_KEY")
                   (getSetting rt "LIVEPEER_API_KEY"))
          (js "ElizaV2-llm-default")) ];
    body := {|
      Body.model :=
        or_default
          (or_else (env !! "LIVEPEER_LARGE_MODEL") (env !! "LIVEPEER_MODEL"))
          (js "meta-llama/Meta-Llama-3.1-8B-Instruct");
      Body.messages := [
        {| Body.role := Body.system;
           Body.content :=
             or_default (character_system rt)
               (js "You are a helpful assistant powered by Livepeer Gateway") |};
        {| Body.role := Body.user; Body.content := prompt p |} ];
      Body.max_tokens :=
        nullish_default (maxTokens p)
          (env_number env "LIVEPEER_MAX_TOKENS" parseInt 2048);
      Body.temperature :=
        nullish_default (temperature p)
          (env_number env "LIVEPEER_TEMPERATURE" parseFloat 0.6);
      Body.stream := false |} |} in
  let after := handle_response (fetch rt url init) in
  call rt p =
  (Log info (js "Livepeer LLM Request:")
     :: Log info (js "Livepeer request body:")
     :: Fetch url init :: trace after,
   outcome after).
Proof.
  intros He Hne url init after. subst after init url.
  unfold callLivepeerLLM. rewrite He.
  destruct e as [|c e]; [done|].
  cbv zeta. unfold mbind, IO_bind, log, runtime_fetch.
  by destruct (handle_response _) as [tr r].
Qed.

(** The four ways [extract_text] ends. *)
Lemma extract_text_cases (parsed : json_value) :
  (exists s, message_content parsed = Some (JString s) /\ s <> [] /\
     extract_text parsed = ([], inr (replace_first marker [] s)))
  \/ (exists s, truthy (message_content parsed) = false /\
        delta_content parsed = Some (JString s) /\ s <> [] /\
        extract_text parsed =
          ([Log warn (js "Falling back to delta.content for Livepeer response")],
           inr (replace_first marker [] s)))
  \/ (truthy (message_content parsed) = false /\
      truthy (delta_content parsed) = false /\
      extract_text parsed =
        ([Log error (js "Invalid response format from Livepeer (final check): ")],
         inl (Error (js "Invalid response format from Livepeer"))))
  \/ (requests (trace (extract_text parsed)) = [] /\
      outcome (extract_text parsed)
        = inl (TypeError (js "content.replace is not a function"))).
Proof.
  unfold extract_text.
  fold (message_content parsed). fold (delta_content parsed).
  destruct (truthy (message_content parsed)) eqn:Em.
  - destruct (message_content parsed) as [[| b | x | [|c s] | xs | ms]|];
      try discriminate Em; cbn [negb andb];
      unfold mbind, IO_bind, mret, IO_ret; cbn [app]; rewrite ?Em; cbn [negb];
      try (right; right; right; by split).
    left. by exists (c :: s).
  - cbn [negb andb]. destruct (truthy (delta_content parsed)) eqn:Ed.
    + destruct (delta_content parsed) as [[| b | x | [|c s] | xs | ms]|];
        try discriminate Ed;
        unfold mbind, IO_bind, mret, IO_ret, log; cbn [app]; rewrite ?Ed;
        cbn [negb];
        try (right; right; right; by split).
      right; left. by exists (c :: s).
    + unfold mbind, IO_bind, mret, IO_ret, log. rewrite Em. cbn [negb].
      right; right; left. by repeat split.
Qed.

(** The three ways [handle_response] goes on. *)
Lemma handle_response_cases res :
  (ok res = false /\
   handle_response res =
     ([Log error (js "Livepeer request failed:")],
      inl (Error (js "Livepeer request failed (" ++ decimal (status res)
                  ++ js "): " ++ text res))))
  \/ (ok res = true /\ json res = None /\
      handle_response res = ([], inl SyntaxError))
  \/ (exists parsed, ok res = true /\ json res = Some parsed /\
        trace (handle_response res) =
          Log info (js "Livepeer response received:")
            :: trace (extract_text parsed) /\
        outcome (handle_response res) = outcome (extract_text parsed)).
Proof.
  unfold handle_response. destruct (ok res); cbn [negb].
  - right. destruct (json res) as [parsed|]; [right | by left].
    exists parsed. unfold mbind, IO_bind, mret, IO_ret, log.
    by destruct (extract_text parsed).
  - by left.
Qed.

Lemma endpoint_cases rt :
  (exists e, endpoint_of rt = Some e /\ e <> []) \/
  truthy (env !! "LIVEPEER_GATEWAY_URL") = false /\
  truthy (getSetting rt "LIVEPEER_GATEWAY_URL") = false.
Proof.
  unfold or_else.
  destruct (truthy (env !! "LIVEPEER_GATEWAY_URL")) eqn:E1.
  - left. destruct (env !! "LIVEPEER_GATEWAY_URL") as [[|c e]|]; try done.
    by exists (c :: e).
  - destruct (truthy (getSetting rt "LIVEPEER_GATEWAY_URL")) eqn:E2; [|by right].
    left. destruct (getSetting rt "LIVEPEER_GATEWAY_URL") as [[|c e]|]; try done.
    by exists (c :: e).
Qed.

(** A handler is a call with both numeric parameters filled in. *)
Lemma gen_call t rt p :
  gen t rt p =
  call rt {|
    prompt := prompt p;
    maxTokens :=
      Some (or_default (maxTokens p)
              (env_number env "LIVEPEER_MAX_TOKENS" parseInt
                 (match t with TEXT_SMALL => 512 | TEXT_LARGE => 2048 end)));
    temperature :=
      Some (or_default (temperature p)
              (env_number env "LIVEPEER_TEMPERATURE" parseFloat 0.6));
    others := [] |}.
Proof. by destruct t. Qed.

Lemma gen_unresolved t rt p :
  truthy (env !! "LIVEPEER_GATEWAY_URL") = false ->
  truthy (getSetting rt "LIVEPEER_GATEWAY_URL") = false ->
  gen t rt p =
  ([], inl (Error (js "Livepeer Gateway URL is not defined (LIVEPEER_GATEWAY_URL)"))).
Proof. intros H1 H2. rewrite gen_call. by apply call_unresolved. Qed.

(** The request of a handler, given the resolved endpoint. *)
Lemma gen_resolved t rt p (e : jsstring) :
  endpoint_of rt = Some e -> e <> [] ->
  exists init,
    let url := strip_trailing_slash e ++ js "/llm" in
    let after := handle_response (fetch rt url init) in
    gen t rt p =
      (Log info (js "Livepeer LLM Request:")
         :: Log info (js "Livepeer request body:")
         :: Fetch url init :: trace after,
       outcome after)
    /\ method init = js "POST"
    /\ header "Authorization" (headers init) =
         Some (js "Bearer " ++
               or_default
                 (or_else (env !! "LIVEPEER_API_KEY")
                          (getSetting rt "LIVEPEER_API_KEY"))
                 (js "ElizaV2-llm-default"))
    /\ Body.model (body init) =
         or_default
           (or_else (env !! "LIVEPEER_LARGE_MODEL") (env !! "LIVEPEER_MODEL"))
           (js "meta-llama/Meta-Llama-3.1-8B-Instruct")
    /\ Body.messages (body init) = [
         {| Body.role := Body.system;
            Body.content :=
              or_default (character_system rt)
                (js "You are a helpful assistant powered by Livepeer Gateway") |};
         {| Body.role := Body.user; Body.content := prompt p |} ]
    /\ Body.max_tokens (body init) =
         or_default (maxTokens p)
           (env_number env "LIVEPEER_MAX_TOKENS" parseInt
              (match t with TEXT_SMALL => 512 | TEXT_LARGE => 2048 end))
    /\ Body.temperature (body init) =
         or_default (temperature p)
           (env_number env "LIVEPEER_TEMPERATURE" parseFloat 0.6)
    /\ Body.stream (body init) = false.
Proof.
  intros He Hne. rewrite gen_call.
  eexists. cbv zeta. split; [by apply (call_resolved _ _ e)|].
  by repeat split.
Qed.

(** The trace of [handle_response] holds log lines only. *)
Lemma handle_response_requests res :
  requests (trace (handle_response res)) = [].
Proof.
  destruct (handle_response_cases res)
    as [(_ & ->) | [(_ & _ & ->) | (v & _ & _ & -> & _)]]; try done.
  cbn. by destruct (extract_text_cases v)
    as [(s & _ & _ & ->) | [(s & _ & _ & _ & ->) | [(_ & _ & ->) | (-> & _)]]].
Qed.

Lemma gen_requests t rt p (e : jsstring) :
  endpoint_of rt = Some e -> e <> [] ->
  exists init,
    requests (trace (gen t rt p)) = [(strip_trailing_slash e ++ js "/llm", init)].
Proof.
  intros He Hne. destruct (gen_resolved t rt p e He Hne) as (init & Hg & _).
  exists init. cbv zeta in Hg. rewrite Hg. cbn.
  by rewrite handle_response_requests.
Qed.

(** Once the runtime has answered [res], the handler ends as
    [handle_response res] does. *)
Lemma gen_response t rt p res :
  response rt (trace (gen t rt p)) = Some res ->
  outcome (gen t rt p) = outcome (handle_response res) /\
  exists url init,
    trace (gen t rt p) =
      Log info (js "Livepeer LLM Request:")
        :: Log info (js "Livepeer request body:")
        :: Fetch url init :: trace (handle_response res).
Proof.
  intros Hres. destruct (endpoint_cases rt) as [(e & He & Hne) | (H1 & H2)].
  - destruct (gen_resolved t rt p e He Hne) as (init & Hg & _).
    cbv zeta in Hg. rewrite Hg in Hres |- *.
    unfold response in Hres. cbn in Hres.
    injection Hres as <-. split; [done|]. by eexists _, _.
  - by rewrite (gen_unresolved t rt p H1 H2) in Hres.
Qed.

Lemma In_requests (tr : list event) url init :
  In (Fetch url init) tr <-> In (url, init) (requests tr).
Proof.
  induction tr as [|[lvl line | u i] tr IH]; cbn; [done | |].
  - rewrite <- IH. split; [intros [?|?] | by right]; [done | done].
  - rewrite <- IH. split; (intros [H|H]; [left; congruence | by right]).
Qed.

Lemma strip_trailing_slash_spec (e : jsstring) :
  without_trailing_slash e (strip_trailing_slash e).
Proof.
  unfold without_trailing_slash.
  destruct (decide (last e = Some 47%N)) as [Hl | Hl].
  - left. apply last_Some in Hl as [base ->].
    pose proof (strip_trailing_slash_snoc base) as Hs.
    change (js "/") with [47%N] in Hs. by rewrite Hs.
  - right. by rewrite strip_trailing_slash_other.
Qed.

Lemma or_default_cases (first second : option jsstring) (d : jsstring) :
  let v := or_default (or_else first second) d in
  resolves first second v \/
  truthy first = false /\ truthy second = false /\ v = d.
Proof.
  cbv zeta. unfold or_default, or_else, resolves.
  destruct (truthy first) eqn:E1.
  - left. destruct first as [[|c v]|]; try done. cbn. by split; [|left].
  - destruct (truthy second) eqn:E2; [|right].
    + left. destruct second as [[|c v]|]; try done. cbn. by split; [|right].
    + repeat split. by destruct second as [[|c v]|].
Qed.

(** What a handler puts into the body of its request. *)
Lemma gen_sent_body t rt p (b : Body.t) :
  sent_body (trace (gen t rt p)) = Some b ->
  Body.model b =
    or_default
      (or_else (env !! "LIVEPEER_LARGE_MODEL") (env !! "LIVEPEER_MODEL"))
      (js "meta-llama/Meta-Llama-3.1-8B-Instruct")
  /\ Body.messages b = [
       {| Body.role := Body.system;
          Body.content :=
            or_default (character_system rt)
              (js "You are a helpful assistant powered by Livepeer Gateway") |};
       {| Body.role := Body.user; Body.content := prompt p |} ]
  /\ Body.max_tokens b =
       or_default (maxTokens p)
         (env_number env "LIVEPEER_MAX_TOKENS" parseInt
            (match t with TEXT_SMALL => 512 | TEXT_LARGE => 2048 end))
  /\ Body.temperature b =
       or_default (temperature p)
         (env_number env "LIVEPEER_TEMPERATURE" parseFloat 0.6)
  /\ Body.stream b = false.
Proof.
  intros Hb. destruct (endpoint_cases rt) as [(e & He & Hne) | (H1 & H2)].
  - destruct (gen_resolved t rt p e He Hne) as (init & Hg & _ & _ & Hrest).
    cbv zeta in Hg. rewrite Hg in Hb. unfold sent_body in Hb. cbn in Hb.
    by injection Hb as <-.
  - by rewrite (gen_unresolved t rt p H1 H2) in Hb.
Qed.

Lemma env_number_set (name : string) parse (d : float) (v : jsstring) :
  env !! name = Some v -> v <> [] -> env_number env name parse d = parse v.
Proof. unfold env_number. intros -> Hv. by destruct v. Qed.

Lemma env_number_unset (name : string) parse (d : float) :
  truthy (env !! name) = false -> env_number env name parse d = d.
Proof. unfold env_number. by intros ->. Qed.

Lemma extract_text_message (parsed : json_value) (s : jsstring) :
  message_content parsed = Some (JString s) -> s <> [] ->
  extract_text parsed = ([], inr (replace_first marker [] s)).
Proof.
  intros Hm Hs. unfold extract_text. fold (message_content parsed).
  rewrite Hm. by destruct s.
Qed.

Lemma extract_text_delta (parsed : json_value) (s : jsstring) :
  truthy (message_content parsed) = false ->
  delta_content parsed = Some (JString s) -> s <> [] ->
  extract_text parsed =
    ([Log warn (js "Falling back to delta.content for Livepeer response")],
     inr (replace_first marker [] s)).
Proof.
  intros Hm Hd Hs. unfold extract_text.
  fold (message_content parsed). fold (delta_content parsed).
  rewrite Hm, Hd. by destruct s.
Qed.

Lemma extract_text_invalid (parsed : json_value) :
  truthy (message_content parsed) = false ->
  truthy (delta_content parsed) = false ->
  extract_text parsed =
    ([Log error (js "Invalid response format from Livepeer (final check): ")],
     inl (Error (js "Invalid response format from Livepeer"))).
Proof.
  intros Hm Hd. unfold extract_text.
  fold (message_content parsed). fold (delta_content parsed).
  rewrite Hd, Hm. cbn [negb andb]. unfold mbind, IO_bind, mret, IO_ret.
  by rewrite Hm.
Qed.

(** After a success response with a JSON body, the handler ends as
    [extract_text] does, and falls back to [delta.content] when
    [extract_text] does. *)
Lemma gen_success t rt p res (parsed : json_value) :
  response rt (trace (gen t rt p)) = Some res ->
  ok res = true -> json res = Some parsed ->
  outcome (gen t rt p) = outcome (extract_text parsed) /\
  (used_delta (trace (gen t rt p)) <-> used_delta (trace (extract_text parsed))).
Proof.
  intros Hres Hok Hjson.
  destruct (gen_response t rt p res Hres) as (Hout & url & init & Htr).
  destruct (handle_response_cases res)
    as [(Hno & _) | [(_ & Hnone & _) | (v & _ & Hv & Htr' & Hout')]];
    [congruence | congruence |].
  assert (v = parsed) as -> by congruence.
  split; [congruence|].
  rewrite Htr, Htr'. unfold used_delta. cbn [In].
  split; [intros [?|[?|[?|[?|?]]]]; by try discriminate | tauto].
Qed.

(** *** Resolution of the endpoint *)

(** C3 (as amended). The endpoint is the LIVEPEER_GATEWAY_URL of the
    process environment when that is set and non-empty, else the runtime
    setting of the same name when that is set and non-empty: the one
    request goes to this endpoint, whatever the parameters of the call
    are. When neither source has a non-empty value, the call fails with
    the configuration error and has sent no request and written no log
    line. No parameter of the call has a part in the URL. *)
Theorem C3_endpoint_resolution t rt p :
  (forall e : jsstring,
      resolves (env !! "LIVEPEER_GATEWAY_URL")
               (getSetting rt "LIVEPEER_GATEWAY_URL") e ->
      map fst (requests (trace (gen t rt p)))
        = [strip_trailing_slash e ++ js "/llm"])
  /\ (truthy (env !! "LIVEPEER_GATEWAY_URL") = false ->
      truthy (getSetting rt "LIVEPEER_GATEWAY_URL") = false ->
      exists err, gen t rt p = ([], inl err) /\ ConfigurationError err)
  /\ (forall p',
        map fst (requests (trace (gen t rt p')))
          = map fst (requests (trace (gen t rt p)))).
Proof.
  split; [|split].
  - intros e He. apply resolves_or_else in He as (He & Hne).
    destruct (gen_requests t rt p e He Hne) as (init & ->). done.
  - intros H1 H2. eexists. split; [by apply gen_unresolved | done].
  - intros p'. destruct (endpoint_cases rt) as [(e & He & Hne) | (H1 & H2)].
    + destruct (gen_requests t rt p e He Hne) as (init & ->).
      by destruct (gen_requests t rt p' e He Hne) as (init' & ->).
    + by rewrite !gen_unresolved.
Qed.

(** *** The request *)

(** C8. Every request a handler sends is a POST; its URL is the resolved
    endpoint without its trailing slash, followed by "/llm"; its
    Authorization header is "Bearer " followed by the API key of the
    environment, else of the runtime settings, else by the literal
    "ElizaV2-llm-default". *)
Theorem C8_request_shape t rt p (url : jsstring) (init : RequestInit) :
  In (Fetch url init) (trace (gen t rt p)) ->
  method init = js "POST"
  /\ (exists e base : jsstring,
        resolves (env !! "LIVEPEER_GATEWAY_URL")
                 (getSetting rt "LIVEPEER_GATEWAY_URL") e
        /\ without_trailing_slash e base
        /\ url = base ++ js "/llm")
  /\ (exists key : jsstring,
        header "Authorization" (headers init) = Some (js "Bearer " ++ key)
        /\ (resolves (env !! "LIVEPEER_API_KEY")
                     (getSetting rt "LIVEPEER_API_KEY") key
            \/ truthy (env !! "LIVEPEER_API_KEY") = false
               /\ truthy (getSetting rt "LIVEPEER_API_KEY") = false
               /\ key = js "ElizaV2-llm-default")).
Proof.
  intros Hin. destruct (endpoint_cases rt) as [(e & He & Hne) | (H1 & H2)].
  - destruct (gen_resolved t rt p e He Hne) as (init0 & Hg & Hm & Ha & _).
    cbv zeta in Hg. apply In_requests in Hin. rewrite Hg in Hin.
    cbn in Hin. rewrite handle_response_requests in Hin.
    destruct Hin as [Heq | []]. injection Heq as <- <-.
    split; [done|]. split.
    + exists e, (strip_trailing_slash e). split; [|split; [|done]].
      * by apply resolves_or_else.
      * apply strip_trailing_slash_spec.
    + eexists. split; [exact Ha|]. apply or_default_cases.
  - rewrite (gen_unresolved t rt p H1 H2) in Hin. destruct Hin.
Qed.

(** *** Failure statuses *)

(** C5. When the response of the gateway is not a success ([ok] is
    false), the handler returns no value: it throws the error whose
    message holds the decimal status code and the text of the body. *)
Theorem C5_non_success_status t rt p res :
  response rt (trace (gen t rt p)) = Some res ->
  ok res = false ->
  exists err,
    outcome (gen t rt p) = inl err
    /\ UpstreamError_status (status res) (text res) err.
Proof.
  intros Hres Hok.
  destruct (gen_response t rt p res Hres) as (Hout & _).
  destruct (handle_response_cases res)
    as [(_ & Hh) | [(Hyes & _) | (v & Hyes & _)]]; [|congruence..].
  eexists. split; [by rewrite Hout, Hh | done].
Qed.

(** *** Extraction of the text *)

(** The three ends of a success response. *)
Lemma content_priority t rt p res (parsed : json_value) :
  response rt (trace (gen t rt p)) = Some res ->
  ok res = true -> json res = Some parsed ->
  (forall s : jsstring,
      message_content parsed = Some (JString s) -> s <> [] ->
      outcome (gen t rt p) = inr (replace_first marker [] s)
      /\ ~ used_delta (trace (gen t rt p)))
  /\ (forall s : jsstring,
        truthy (message_content parsed) = false ->
        delta_content parsed = Some (JString s) -> s <> [] ->
        outcome (gen t rt p) = inr (replace_first marker [] s)
        /\ used_delta (trace (gen t rt p)))
  /\ (truthy (message_content parsed) = false ->
      truthy (delta_content parsed) = false ->
      exists err,
        outcome (gen t rt p) = inl err /\ UpstreamError_format err).
Proof.
  intros Hres Hok Hjson.
  destruct (gen_success t rt p res parsed Hres Hok Hjson) as (Hout & Hused).
  split; [|split].
  - intros s Hm Hs.
    rewrite Hout, Hused, (extract_text_message parsed s Hm Hs).
    split; [done|]. unfold used_delta. cbn. tauto.
  - intros s Hm Hd Hs.
    rewrite Hout, Hused, (extract_text_delta parsed s Hm Hd Hs).
    split; [done|]. unfold used_delta. cbn. by left.
  - intros Hm Hd. rewrite Hout, (extract_text_invalid parsed Hm Hd).
    by eexists.
Qed.

(** C4 (as amended). On a success response with a JSON body:
    [message.content] is returned (marker removed) when it is a non-empty
    string, and [delta.content] is then not consulted; when
    [message.content] is falsy (absent, [null], or the empty string among
    others) and [delta.content] is a non-empty string, [delta.content] is
    returned (marker removed); when both are falsy the handler throws the
    invalid-format error. In particular an absent [message.content] with
    [delta.content = "X"] gives ["X"]. *)
Theorem C4_content_priority t rt p res (parsed : json_value) :
  response rt (trace (gen t rt p)) = Some res ->
  ok res = true -> json res = Some parsed ->
  (forall s : jsstring,
      message_content parsed = Some (JString s) -> s <> [] ->
      outcome (gen t rt p) = inr (replace_first marker [] s)
      /\ ~ used_delta (trace (gen t rt p)))
  /\ (forall s : jsstring,
        truthy (message_content parsed) = false ->
        delta_content parsed = Some (JString s) -> s <> [] ->
        outcome (gen t rt p) = inr (replace_first marker [] s)
        /\ used_delta (trace (gen t rt p)))
  /\ (truthy (message_content parsed) = false ->
      truthy (delta_content parsed) = false ->
      exists err,
        outcome (gen t rt p) = inl err /\ UpstreamError_format err)
  /\ (message_content parsed = None ->
      delta_content parsed = Some (JString (js "X")) ->
      outcome (gen t rt p) = inr (js "X")).
Proof.
  intros Hres Hok Hjson.
  destruct (content_priority t rt p res parsed Hres Hok Hjson)
    as (Hmsg & Hdelta & Hnone).
  split; [exact Hmsg|]. split; [exact Hdelta|]. split; [exact Hnone|].
  intros Hm Hd.
  by destruct (Hdelta (js "X")) as (-> & _); [by rewrite Hm | done | done |].
Qed.

(** C9. When [message.content] of the first choice is the empty string,
    the handler falls through to [delta.content]: a non-empty string there
    is returned (marker removed); when [delta.content] is absent or is the
    empty string too, the handler throws the invalid-format error. *)
Theorem C9_empty_content_is_absent t rt p res (parsed : json_value) :
  response rt (trace (gen t rt p)) = Some res ->
  ok res = true -> json res = Some parsed ->
  message_content parsed = Some (JString []) ->
  (forall s : jsstring,
      delta_content parsed = Some (JString s) -> s <> [] ->
      outcome (gen t rt p) = inr (replace_first marker [] s)
      /\ used_delta (trace (gen t rt p)))
  /\ (delta_content parsed = None
      \/ delta_content parsed = Some (JString []) ->
      exists err,
        outcome (gen t rt p) = inl err /\ UpstreamError_format err).
Proof.
  intros Hres Hok Hjson Hm.
  destruct (content_priority t rt p res parsed Hres Hok Hjson)
    as (_ & Hdelta & Hnone).
  assert (truthy (message_content parsed) = false) as Hf by by rewrite Hm.
  split.
  - intros s Hd Hs. by apply Hdelta.
  - intros Hd. apply Hnone; [done|]. by destruct Hd as [-> | ->].
Qed.

(** *** The marker *)

Lemma marker_head : marker = 60%N :: tail marker.
Proof. reflexivity. Qed.

(** A leading marker is removed. *)
Lemma leading_marker_removed t rt p res (parsed : json_value) (rest : jsstring) :
  response rt (trace (gen t rt p)) = Some res ->
  ok res = true -> json res = Some parsed ->
  message_content parsed = Some (JString (marker ++ rest)) ->
  outcome (gen t rt p) = inr rest.
Proof.
  intros Hres Hok Hjson Hm.
  destruct (content_priority t rt p res parsed Hres Hok Hjson) as (Hmsg & _).
  destruct (Hmsg _ Hm) as (-> & _); [by rewrite marker_head|].
  by rewrite replace_first_prefix.
Qed.

(** A text in which the marker does not occur is returned as it is. *)
Lemma text_without_marker_unchanged t rt p res (parsed : json_value)
    (s : jsstring) :
  response rt (trace (gen t rt p)) = Some res ->
  ok res = true -> json res = Some parsed ->
  message_content parsed = Some (JString s) -> s <> [] ->
  ~ occurs marker s ->
  outcome (gen t rt p) = inr s.
Proof.
  intros Hres Hok Hjson Hm Hs Hno.
  destruct (content_priority t rt p res parsed Hres Hok Hjson) as (Hmsg & _).
  destruct (Hmsg _ Hm Hs) as (-> & _). by rewrite replace_first_absent.
Qed.

(** A marker that follows other text is removed too: the pattern is not
    anchored at the start. *)
Lemma inner_marker_removed t rt p res (parsed : json_value)
    (before after : jsstring) :
  response rt (trace (gen t rt p)) = Some res ->
  ok res = true -> json res = Some parsed ->
  message_content parsed = Some (JString (before ++ marker ++ after)) ->
  Forall (fun c => c <> 60%N) before ->
  outcome (gen t rt p) = inr (before ++ after).
Proof.
  intros Hres Hok Hjson Hm Hb.
  destruct (content_priority t rt p res parsed Hres Hok Hjson) as (Hmsg & _).
  destruct (Hmsg _ Hm) as (-> & _).
  - rewrite marker_head. by destruct before.
  - rewrite marker_head.
    by rewrite (replace_first_inner 60%N (tail marker) [] before after Hb).
Qed.

(** *** The numeric parameters *)

(** Arguments that are truthy numbers reach the request as they are. *)
Lemma truthy_arguments_win t rt p (b : Body.t) (m x : float) :
  sent_body (trace (gen t rt p)) = Some b ->
  maxTokens p = Some m -> truthy m = true ->
  temperature p = Some x -> truthy x = true ->
  Body.max_tokens b = m /\ Body.temperature b = x.
Proof.
  intros Hb Hm Hmt Hx Hxt.
  destruct (gen_sent_body t rt p b Hb) as (_ & _ & -> & -> & _).
  rewrite Hm, Hx. unfold or_default. by rewrite Hmt, Hxt.
Qed.

(** Without arguments, non-empty environment variables are parsed and
    used. *)
Lemma environment_overrides_defaults t rt p (b : Body.t) (sm sx : jsstring) :
  sent_body (trace (gen t rt p)) = Some b ->
  maxTokens p = None -> temperature p = None ->
  env !! "LIVEPEER_MAX_TOKENS" = Some sm -> sm <> [] ->
  env !! "LIVEPEER_TEMPERATURE" = Some sx -> sx <> [] ->
  Body.max_tokens b = parseInt sm /\ Body.temperature b = parseFloat sx.
Proof.
  intros Hb Hm Hx Hsm Hsm' Hsx Hsx'.
  destruct (gen_sent_body t rt p b Hb) as (_ & _ & -> & -> & _).
  rewrite Hm, Hx. cbn [or_default].
  by rewrite (env_number_set _ _ _ sm), (env_number_set _ _ _ sx).
Qed.

(** Without arguments and environment variables, the defaults are 512 or
    2048 tokens and the temperature 0.6. *)
Lemma hardcoded_defaults t rt p (b : Body.t) :
  sent_body (trace (gen t rt p)) = Some b ->
  maxTokens p = None -> temperature p = None ->
  truthy (env !! "LIVEPEER_MAX_TOKENS") = false ->
  truthy (env !! "LIVEPEER_TEMPERATURE") = false ->
  Body.max_tokens b = (match t with TEXT_SMALL => 512 | TEXT_LARGE => 2048 end)%float
  /\ Body.temperature b = 0.6%float.
Proof.
  intros Hb Hm Hx Hsm Hsx.
  destruct (gen_sent_body t rt p b Hb) as (_ & _ & -> & -> & _).
  rewrite Hm, Hx. cbn [or_default].
  by rewrite !env_number_unset.
Qed.

(** An argument that is zero or NaN is treated as if it were not given. *)
Lemma falsy_arguments_dropped t rt p (b : Body.t) (m x : float) :
  sent_body (trace (gen t rt p)) = Some b ->
  maxTokens p = Some m -> truthy m = false ->
  temperature p = Some x -> truthy x = false ->
  Body.max_tokens b =
    env_number env "LIVEPEER_MAX_TOKENS" parseInt
      (match t with TEXT_SMALL => 512 | TEXT_LARGE => 2048 end)
  /\ Body.temperature b =
       env_number env "LIVEPEER_TEMPERATURE" parseFloat 0.6.
Proof.
  intros Hb Hm Hmt Hx Hxt.
  destruct (gen_sent_body t rt p b Hb) as (_ & _ & -> & -> & _).
  rewrite Hm, Hx. unfold or_default. by rewrite Hmt, Hxt.
Qed.

(** *** The two profiles *)

(** Both handlers take the model name from LIVEPEER_LARGE_MODEL, else from
    LIVEPEER_MODEL, else the hardcoded default. *)
Lemma handlers_same_model rt p (b b' : Body.t) :
  sent_body (trace (gen TEXT_SMALL rt p)) = Some b ->
  sent_body (trace (gen TEXT_LARGE rt p)) = Some b' ->
  Body.model b = Body.model b'
  /\ (resolves (env !! "LIVEPEER_LARGE_MODEL") (env !! "LIVEPEER_MODEL")
        (Body.model b)
      \/ truthy (env !! "LIVEPEER_LARGE_MODEL") = false
         /\ truthy (env !! "LIVEPEER_MODEL") = false
         /\ Body.model b = js "meta-llama/Meta-Llama-3.1-8B-Instruct").
Proof.
  intros Hb Hb'.
  destruct (gen_sent_body _ rt p b Hb) as (-> & _).
  destruct (gen_sent_body _ rt p b' Hb') as (-> & _).
  split; [done|]. apply or_default_cases.
Qed.

(** The handlers run alike whenever the hardcoded token fallback is not
    reached. *)
Lemma handlers_agree rt p :
  truthy (maxTokens p) = true \/ truthy (env !! "LIVEPEER_MAX_TOKENS") = true ->
  gen TEXT_SMALL rt p = gen TEXT_LARGE rt p.
Proof.
  intros H. rewrite !gen_call. do 3 f_equal.
  destruct H as [H | H].
  - destruct (maxTokens p) as [m|]; [|done].
    unfold or_default. cbn in H. unfold truthy in H |- *. by rewrite H.
  - assert (forall d, env_number env "LIVEPEER_MAX_TOKENS" parseInt d
              = parseInt (nullish_default (env !! "LIVEPEER_MAX_TOKENS") []))
      as Hn by (intros d; unfold env_number; by rewrite H).
    by rewrite !Hn.
Qed.

End Run.

Example parseDigits_512 : Sample.parseDigits (js "512") = 512%float.
Proof. reflexivity. Qed.

Example run_hello :
  generate Sample.gateway_env Sample.parseDigits Sample.parseDigits TEXT_SMALL
    (Sample.answering Sample.hello) (Sample.ask "hi")
  = ([Log info (js "Livepeer LLM Request:");
      Log info (js "Livepeer request body:");
      Fetch (js "http://gateway.example/llm") (Sample.plain_request 512);
      Log info (js "Livepeer response received:")],
     inr (js "Hello")).
Proof. vm_compute. reflexivity. Qed.

(** ** Concrete runs *)

Section Concrete.

Import Sample.

Local Abbreviation run env := (generate env parseDigits parseDigits).

(** C1. The marker is removed wherever it first occurs, not only at the
    start: for the content "Hello " ++ marker ++ "world", which does not
    begin with the marker, the handler returns "Hello world". *)
Theorem C1_marker_inside_text_removed :
  let text := js "Hello " ++ marker ++ js "world" in
  strip_prefix marker text = None
  /\ outcome (run gateway_env TEXT_LARGE
                (answering (completion (with_message text))) (ask "hi"))
     = inr (js "Hello world").
Proof. vm_compute. by split. Qed.

(** C2. An explicit temperature of 0 does not reach the request: both
    handlers send the default 0.6 when LIVEPEER_TEMPERATURE is unset and
    the value of LIVEPEER_TEMPERATURE when it is set, whereas
    [callLivepeerLLM] itself keeps an explicit 0. *)
Theorem C2_zero_temperature_replaced :
  (forall t,
      Body.temperature <$>
        sent_body (trace (run gateway_env t (answering hello) greedy))
      = Some 0.6%float)
  /\ (forall t,
        Body.temperature <$>
          sent_body (trace (run tuned_env t (answering hello) greedy))
        = Some 1%float)
  /\ Body.temperature <$>
       sent_body (trace (callLivepeerLLM gateway_env parseDigits parseDigits
                           (answering hello) greedy))
     = Some 0%float.
Proof. repeat split; try intros []; vm_compute; reflexivity. Qed.

(** C10. With an explicit token budget of 0 and LIVEPEER_MAX_TOKENS unset,
    the two handlers build different request bodies: max_tokens is 512 in
    the small profile and 2048 in the large one. *)
Theorem C10_zero_budget_bodies_differ :
  Body.max_tokens <$>
    sent_body (trace (run gateway_env TEXT_SMALL (answering hello) zero_budget))
  = Some 512%float
  /\ Body.max_tokens <$>
       sent_body (trace (run gateway_env TEXT_LARGE (answering hello) zero_budget))
     = Some 2048%float
  /\ sent_body (trace (run gateway_env TEXT_SMALL (answering hello) zero_budget))
     <> sent_body (trace (run gateway_env TEXT_LARGE (answering hello) zero_budget)).
Proof.
  split; [by vm_compute|]. split; [by vm_compute|].
  intros H.
  apply (f_equal (fun o =>
           match o with
           | Some b => PrimFloat.eqb (Body.max_tokens b) 512
           | None => false
           end)) in H.
  vm_compute in H. discriminate H.
Qed.

(** C3, counterexample. The environment names one gateway and the caller's
    parameter object another: the request goes to the gateway of the
    environment. *)
Lemma C3_explicit_endpoint_ignored :
  map fst (requests (trace (run gateway_env TEXT_LARGE
                              (with_settings hello) with_endpoint)))
  = [js "http://gateway.example/llm"].
Proof. vm_compute. reflexivity. Qed.

(** The three cases of the resolution, on sample hosts. *)
Lemma C3_endpoint_resolution_witness :
  map fst (requests (trace (run gateway_env TEXT_SMALL
                              (with_settings hello) (ask "hi"))))
    = [js "http://gateway.example/llm"]
  /\ map fst (requests (trace (run no_env TEXT_SMALL
                                 (with_settings hello) (ask "hi"))))
     = [js "http://setting.example/llm"]
  /\ exists err,
       run no_env TEXT_SMALL (answering hello) (ask "hi") = ([], inl err)
       /\ ConfigurationError err.
Proof.
  split; [|split].
  - apply (proj1 (C3_endpoint_resolution gateway_env parseDigits parseDigits
                    TEXT_SMALL (with_settings hello) (ask "hi"))
             (js "http://gateway.example/")).
    split; [discriminate | left; vm_compute; reflexivity].
  - apply (proj1 (C3_endpoint_resolution no_env parseDigits parseDigits
                    TEXT_SMALL (with_settings hello) (ask "hi"))
             (js "http://setting.example")).
    split; [discriminate | right; split; vm_compute; reflexivity].
  - apply (proj1 (proj2 (C3_endpoint_resolution no_env parseDigits parseDigits
                           TEXT_SMALL (answering hello) (ask "hi"))));
      vm_compute; reflexivity.
Defined.

(** C4, counterexample. [message.content] is present (the empty string)
    and [delta.content] is "X": the handler falls back to [delta.content]
    and returns "X". *)
Lemma C4_delta_used_with_message_content_present :
  let choice := with_both [] (js "X") in
  let m := run gateway_env TEXT_LARGE (answering (completion choice)) (ask "hi") in
  message_content (JObject [(js "choices", JArray [choice])])
    = Some (JString [])
  /\ outcome m = inr (js "X")
  /\ used_delta (trace m).
Proof.
  cbv zeta. split; [by vm_compute|]. split; [by vm_compute|].
  unfold used_delta. vm_compute. tauto.
Qed.

(** A message, a delta without message, and a choice without either. *)
Lemma C4_content_priority_witness :
  (outcome (run gateway_env TEXT_SMALL (answering hello) (ask "hi"))
     = inr (replace_first marker [] (js "Hello"))
   /\ ~ used_delta (trace (run gateway_env TEXT_SMALL (answering hello) (ask "hi"))))
  /\ outcome (run gateway_env TEXT_SMALL
                (answering (completion (with_delta (js "X")))) (ask "hi"))
     = inr (js "X")
  /\ exists err,
       outcome (run gateway_env TEXT_SMALL
                  (answering (completion (JObject []))) (ask "hi")) = inl err
       /\ UpstreamError_format err.
Proof.
  split; [|split].
  - apply (proj1 (C4_content_priority gateway_env parseDigits parseDigits
                    TEXT_SMALL (answering hello) (ask "hi") hello
                    (JObject [(js "choices", JArray [with_message (js "Hello")])])
                    eq_refl eq_refl eq_refl)
             (js "Hello")); [reflexivity | discriminate].
  - apply (proj2 (proj2 (proj2
             (C4_content_priority gateway_env parseDigits parseDigits
                TEXT_SMALL (answering (completion (with_delta (js "X"))))
                (ask "hi") (completion (with_delta (js "X")))
                (JObject [(js "choices", JArray [with_delta (js "X")])])
                eq_refl eq_refl eq_refl)))); reflexivity.
  - apply (proj1 (proj2 (proj2
             (C4_content_priority gateway_env parseDigits parseDigits
                TEXT_SMALL (answering (completion (JObject [])))
                (ask "hi") (completion (JObject []))
                (JObject [(js "choices", JArray [JObject []])])
                eq_refl eq_refl eq_refl)))); reflexivity.
Defined.

(** A gateway that answers 500 with the body "upstream down". *)
Lemma C5_non_success_status_witness :
  exists err,
    outcome (run gateway_env TEXT_LARGE
               (answering (failure 500 (js "upstream down"))) (ask "hi"))
      = inl err
    /\ UpstreamError_status 500 (js "upstream down") err.
Proof.
  apply (C5_non_success_status gateway_env parseDigits parseDigits TEXT_LARGE
           (answering (failure 500 (js "upstream down"))) (ask "hi")
           (failure 500 (js "upstream down"))); reflexivity.
Defined.

(** The request of the large profile under [gateway_env]. *)
Lemma C8_request_shape_witness :
  method (plain_request 2048) = js "POST"
  /\ (exists e base : jsstring,
        resolves (gateway_env !! "LIVEPEER_GATEWAY_URL") None e
        /\ without_trailing_slash e base
        /\ js "http://gateway.example/llm" = base ++ js "/llm")
  /\ (exists key : jsstring,
        header "Authorization" (headers (plain_request 2048))
          = Some (js "Bearer " ++ key)
        /\ (resolves (gateway_env !! "LIVEPEER_API_KEY") None key
            \/ truthy (gateway_env !! "LIVEPEER_API_KEY") = false
               /\ truthy (@None jsstring) = false
               /\ key = js "ElizaV2-llm-default")).
Proof.
  apply (C8_request_shape gateway_env parseDigits parseDigits TEXT_LARGE
           (answering hello) (ask "hi")
           (js "http://gateway.example/llm") (plain_request 2048)).
  vm_compute. tauto.
Defined.

(** An empty message with a delta, and an empty message alone. *)
Lemma C9_empty_content_is_absent_witness :
  (outcome (run gateway_env TEXT_LARGE
              (answering (completion (with_both [] (js "from delta"))))
              (ask "hi"))
     = inr (replace_first marker [] (js "from delta"))
   /\ used_delta
        (trace (run gateway_env TEXT_LARGE
                  (answering (completion (with_both [] (js "from delta"))))
                  (ask "hi"))))
  /\ exists err,
       outcome (run gateway_env TEXT_LARGE
                  (answering (completion (with_message []))) (ask "hi"))
         = inl err
       /\ UpstreamError_format err.
Proof.
  split.
  - apply (proj1 (C9_empty_content_is_absent gateway_env parseDigits parseDigits
                    TEXT_LARGE
                    (answering (completion (with_both [] (js "from delta"))))
                    (ask "hi") (completion (with_both [] (js "from delta")))
                    (JObject [(js "choices",
                               JArray [with_both [] (js "from delta")])])
                    eq_refl eq_refl eq_refl eq_refl)
             (js "from delta")); [reflexivity | discriminate].
  - apply (proj2 (C9_empty_content_is_absent gateway_env parseDigits parseDigits
                    TEXT_LARGE (answering (completion (with_message [])))
                    (ask "hi") (completion (with_message []))
                    (JObject [(js "choices", JArray [with_message []])])
                    eq_refl eq_refl eq_refl eq_refl)).
    left. reflexivity.
Defined.

End Concrete.

(** ** The placeholder embedding *)

Section Embedding.

Variable runtime : IAgentRuntime.

Local Abbreviation embed := (handler_TEXT_EMBEDDING runtime).

Lemma length_zeros : length zeros = 384%nat.
Proof. reflexivity. Qed.

Lemma length_accumulate (text : jsstring) (i : nat) (vec : list float) :
  length (accumulate text i vec) = length vec.
Proof.
  revert i vec. induction text as [|c text IH]; intros i vec; [done|].
  cbn [accumulate]. by rewrite IH, length_alter.
Qed.

(** The loop touches entry [j] at the positions congruent to [j] only,
    and there it adds to what the entry holds. *)
Lemma accumulate_lookup (text : jsstring) (i j : nat) (vec : list float)
    (a : float) :
  vec !! j = Some a ->
  accumulate text i vec !! j = Some (entry_sum text i j a).
Proof.
  revert i vec a. induction text as [|c text IH]; intros i vec a Hj; [done|].
  cbn [accumulate entry_sum]. apply IH.
  destruct (Nat.eqb_spec (i mod DIMS) j) as [<- | Hne].
  - by rewrite list_lookup_alter_eq, Hj.
  - by rewrite list_lookup_alter_ne.
Qed.

(** The loop computes, entry by entry, the sums of the specification. *)
Lemma accumulate_zeros (text : jsstring) :
  accumulate text 0 zeros = embedding_spec text.
Proof.
  apply list_eq. intros j. unfold embedding_spec.
  rewrite list_lookup_fmap.
  destruct (decide (j < DIMS)%nat) as [Hlt | Hge].
  - rewrite (lookup_seq_lt 0 DIMS j Hlt). cbn [fmap option_fmap option_map].
    apply accumulate_lookup. by apply lookup_replicate_2.
  - rewrite !lookup_ge_None_2; [done | |].
    + rewrite length_seq. lia.
    + rewrite length_accumulate, length_zeros. unfold DIMS in Hge. lia.
Qed.

Lemma length_embedding_spec (text : jsstring) :
  length (embedding_spec text) = 384%nat.
Proof. unfold embedding_spec. by rewrite length_fmap, length_seq. Qed.

Lemma all_from_spec (n : nat) (c : N) (P : N -> bool) :
  all_from n c P = true ->
  forall k : N, (c <= k < c + N.of_nat n)%N -> P k = true.
Proof.
  revert c. induction n as [|n IH]; intros c H k Hk; [lia|].
  cbn [all_from] in H. apply andb_prop in H as [Hc Hn].
  destruct (decide (k = c)) as [-> | Hne]; [done|].
  apply (IH (N.succ c) Hn). lia.
Qed.

(** Added to zero, the quotient of a code unit stays the same float. The
    65536 code units are checked one by one. *)
Lemma zero_plus_quotient (c : code_unit) :
  (c < 65536)%N ->
  (0 + charCode c / 65535)%float = (charCode c / 65535)%float.
Proof.
  intros Hc. apply FloatAxioms.Leibniz.eqb_spec.
  apply (all_from_spec (N.to_nat 65536) 0
           (fun k => PrimFloat.Leibniz.eqb (0 + charCode k / 65535)
                                           (charCode k / 65535))).
  - vm_compute. reflexivity.
  - lia.
Qed.

(** While the index has not wrapped around, entry [j] receives the one
    character at position [j]. *)
Lemma entry_sum_short (text : jsstring) (i j : nat) (a : float) :
  (i + length text <= DIMS)%nat ->
  entry_sum text i j a =
  match text !! (j - i)%nat with
  | Some c => if decide (i <= j)%nat then (a + charCode c / 65535)%float else a
  | None => a
  end.
Proof.
  revert i a. induction text as [|c text IH]; intros i a Hlen; [done|].
  cbn [length] in Hlen. cbn [entry_sum].
  rewrite (Nat.mod_small i DIMS) by lia.
  rewrite IH by lia.
  destruct (Nat.eqb_spec i j) as [-> | Hne].
  - rewrite Nat.sub_diag. cbn [lookup list_lookup].
    rewrite (decide_True (P := (j <= j)%nat)) by lia.
    destruct (text !! (j - S j)%nat); [|done].
    by rewrite (decide_False (P := (S j <= j)%nat)) by lia.
  - destruct (decide (i <= j)%nat) as [Hle | Hgt].
    + replace (j - i)%nat with (S (j - S i)) by lia. cbn [lookup list_lookup].
      destruct (text !! (j - S i)%nat); [|done].
      by rewrite (decide_True (P := (S i <= j)%nat)) by lia.
    + replace (j - i)%nat with 0%nat by lia. cbn [lookup list_lookup].
      destruct (text !! (j - S i)%nat); [|done].
      by rewrite (decide_False (P := (S i <= j)%nat)) by lia.
Qed.

(** A text of at most 384 characters is embedded character by character:
    entry [j] is exactly [charCode(j) / 65535], the entries behind the text
    are zero. *)
Lemma embedding_short_text (text : jsstring) :
  (length text <= DIMS)%nat ->
  Forall (fun c => (c < 65536)%N) text ->
  embedding_spec text =
  ((fun c => (charCode c / 65535)%float) <$> text)
    ++ replicate (DIMS - length text) 0%float.
Proof.
  intros Hlen Hunits. apply list_eq. intros j. unfold embedding_spec.
  rewrite list_lookup_fmap.
  destruct (decide (j < DIMS)%nat) as [Hj | Hj].
  - rewrite (lookup_seq_lt 0 DIMS j Hj). cbn [fmap option_fmap option_map].
    rewrite entry_sum_short by (cbn; lia).
    rewrite Nat.add_0_l, Nat.sub_0_r.
    destruct (text !! j) as [c|] eqn:Hc.
    + rewrite (decide_True (P := (0 <= j)%nat)) by lia.
      pose proof (lookup_lt_Some _ _ _ Hc) as Hlt.
      rewrite lookup_app_l by (by rewrite length_fmap).
      rewrite list_lookup_fmap, Hc. cbn. f_equal.
      apply zero_plus_quotient.
      by apply (proj1 (Forall_lookup _ _) Hunits j c).
    + apply lookup_ge_None in Hc.
      rewrite lookup_app_r by (by rewrite length_fmap).
      rewrite length_fmap. symmetry. apply lookup_replicate_2. lia.
  - rewrite !lookup_ge_None_2; [done | |].
    + rewrite length_app, length_fmap, length_replicate. lia.
    + rewrite length_seq. lia.
Qed.

(** C6. [embed] of [null], of the empty string and of [{}] all return the vector
    of 384 zeros, and so does every input that is [null], that has no
    usable [text], or whose text is empty or consists of whitespace. *)
Theorem C6_zero_vector :
  (embed EmbedNull = ([], inr zeros)
   /\ embed (EmbedString []) = ([], inr zeros)
   /\ embed (EmbedObject None) = ([], inr zeros))
  /\ length zeros = 384%nat
  /\ Forall (fun x => x = 0%float) zeros
  /\ forall p : TextEmbeddingInput,
       input_text p = None
       \/ (exists s, input_text p = Some s /\ whitespace_only s) ->
       embed p = ([], inr zeros).
Proof.
  split; [by repeat split|]. split; [done|].
  split; [by apply Forall_replicate|].
  intros p Hp. unfold handler_TEXT_EMBEDDING.
  destruct p as [|s|[[s|]|]]; try done.
  - destruct Hp as [Hp | (s' & [= <-] & Hw)]; [done|].
    destruct s as [|c s]; [done|]. cbn [truthy truthy_input truthy_string negb orb].
    by rewrite (proj2 (truthy_trim (c :: s)) Hw).
  - destruct Hp as [Hp | (s' & [= <-] & Hw)]; [done|].
    cbn [truthy truthy_input negb orb nullish_default].
    by rewrite (proj2 (truthy_trim s) Hw).
Qed.

(** C7. For a text that is not empty and not whitespace only, [embed]
    returns the vector of length 384 whose entry [j] is the sum, taken
    from zero in reading order, of [charCode / 65535] over the positions
    congruent to [j] modulo 384. For "AB" these are the floats
    65 / 65535 and 66 / 65535 followed by 382 zeros. *)
Theorem C7_embedding :
  (forall (p : TextEmbeddingInput) (s : jsstring),
      input_text p = Some s -> ~ whitespace_only s ->
      outcome (embed p) = inr (embedding_spec s)
      /\ length (embedding_spec s) = 384%nat)
  /\ outcome (embed (EmbedString (js "AB")))
     = inr ((65 / 65535)%float :: (66 / 65535)%float
              :: replicate 382 0%float).
Proof.
  split; [|by vm_compute].
  intros p s Hp Hw. split; [|apply length_embedding_spec].
  assert (truthy (trim s) = true) as Ht.
  { destruct (truthy (trim s)) eqn:E; [done|]. by apply truthy_trim in E. }
  assert (s <> []) as Hs by (intros ->; apply Hw; constructor).
  unfold handler_TEXT_EMBEDDING.
  destruct p as [|s'|[[s'|]|]]; try done; injection Hp as ->.
  - destruct s as [|c s]; [done|].
    cbn [truthy truthy_input truthy_string negb orb]. rewrite Ht.
    cbn [negb]. unfold mbind, IO_bind, log, mret, IO_ret, outcome. cbn [snd].
    by rewrite accumulate_zeros.
  - cbn [truthy truthy_input negb orb nullish_default]. rewrite Ht.
    cbn [negb]. unfold mbind, IO_bind, log, mret, IO_ret, outcome. cbn [snd].
    by rewrite accumulate_zeros.
Qed.

End Embedding.

(** An object whose text is two spaces. *)
Lemma C6_zero_vector_witness :
  handler_TEXT_EMBEDDING (Sample.answering Sample.hello)
    (EmbedObject (Some (Some (js "  "))))
  = ([], inr zeros).
Proof.
  apply (proj2 (proj2 (proj2 (C6_zero_vector (Sample.answering Sample.hello))))).
  right. exists (js "  "). split; [reflexivity|].
  repeat constructor.
Defined.

(** An object whose text is "Hi". *)
Lemma C7_embedding_witness :
  outcome (handler_TEXT_EMBEDDING (Sample.answering Sample.hello)
             (EmbedObject (Some (Some (js "Hi")))))
    = inr (embedding_spec (js "Hi"))
  /\ length (embedding_spec (js "Hi")) = 384%nat.
Proof.
  apply (proj1 (C7_embedding (Sample.answering Sample.hello))
           (EmbedObject (Some (Some (js "Hi")))) (js "Hi")); [reflexivity|].
  intros H. inversion H as [|c l Hc Hl]. discriminate Hc.
Defined.

(** * Further properties of the adapter *)

(** ** The replacement of the marker, in full *)

Lemma leftmost_here (pat rest : jsstring) :
  leftmost pat (pat ++ rest) [] rest.
Proof. split; [done|]. intros b a _. cbn. lia. Qed.

Lemma replace_first_leftmost (pat repl s before after : jsstring) :
  leftmost pat s before after ->
  replace_first pat repl s = before ++ repl ++ after.
Proof.
  revert s. induction before as [|c before IH]; intros s [Hs Hmin].
  - subst s. exact (replace_first_prefix pat repl after).
  - subst s. change ((c :: before) ++ pat ++ after)
      with (c :: (before ++ pat ++ after)).
    rewrite replace_first_unfold.
    destruct (strip_prefix pat (c :: (before ++ pat ++ after)))
      as [rest|] eqn:E.
    + apply strip_prefix_Some in E.
      specialize (Hmin [] rest E). cbn in Hmin. lia.
    + cbn [app]. f_equal. apply IH. split; [done|].
      intros b a Hba. specialize (Hmin (c :: b) a).
      cbn in Hmin. rewrite Hba in Hmin. specialize (Hmin eq_refl). lia.
Qed.

(** Where the pattern occurs, it has a first occurrence. *)
Lemma occurs_leftmost (pat s : jsstring) :
  occurs pat s -> exists before after, leftmost pat s before after.
Proof.
  induction s as [|c s IH]; intros Hocc.
  - destruct Hocc as (b & a & Hs).
    destruct b; [|discriminate]. destruct pat; [|discriminate].
    exists [], []. split; [done|]. intros; cbn; lia.
  - destruct (strip_prefix pat (c :: s)) as [rest|] eqn:E.
    + apply strip_prefix_Some in E. rewrite E.
      exists [], rest. apply leftmost_here.
    + assert (forall a, c :: s <> pat ++ a) as Hnot.
      { intros a Ha. rewrite Ha, strip_prefix_app in E. discriminate. }
      destruct IH as (before & after & Hs & Hmin).
      { destruct Hocc as ([|c' b] & a & Hs); [by destruct (Hnot a)|].
        exists b, a. by injection Hs. }
      exists (c :: before), after. split; [by rewrite Hs|].
      intros [|c' b] a Hba; [by destruct (Hnot a)|].
      injection Hba as _ Hba. specialize (Hmin b a Hba). cbn. lia.
Qed.

(** Removing the first occurrence leaves nothing only of the bare
    pattern. *)
Lemma replace_first_nil (pat s : jsstring) :
  replace_first pat [] s = [] -> s = [] \/ s = pat.
Proof.
  rewrite replace_first_unfold.
  destruct (strip_prefix pat s) as [rest|] eqn:E.
  - cbn. intros ->. right. apply strip_prefix_Some in E.
    by rewrite app_nil_r in E.
  - destruct s; [by left | discriminate].
Qed.

(** At most one occurrence is removed. *)
Lemma replace_first_length (pat s : jsstring) :
  (length (replace_first pat [] s) = length s
   \/ length (replace_first pat [] s) + length pat = length s)%nat.
Proof.
  induction s as [|c s IH]; rewrite replace_first_unfold.
  - destruct (strip_prefix pat []) as [rest|] eqn:E; [|by left].
    apply strip_prefix_Some in E. right.
    apply (f_equal length) in E. rewrite length_app in E. cbn in *. lia.
  - destruct (strip_prefix pat (c :: s)) as [rest|] eqn:E.
    + apply strip_prefix_Some in E. right. cbn [app]. rewrite E, length_app. lia.
    + cbn [length]. destruct IH as [IH | IH]; [left | right]; lia.
Qed.

Section Further.

Variable env : gmap string jsstring.
Variable parseInt parseFloat : jsstring -> float.

Implicit Types (rt : IAgentRuntime) (p : GenerateTextParams).
Implicit Types (t : TextModelType) (res : Response).

Local Abbreviation call := (callLivepeerLLM env parseInt parseFloat).
Local Abbreviation gen := (generate env parseInt parseFloat).

(** What the handler makes of a non-empty [message.content]: the text
    without the first occurrence of the marker, wherever that is, and the
    text itself when the marker does not occur. Later occurrences stay. *)
Theorem marker_first_occurrence_removed t rt p res (parsed : json_value)
    (s : jsstring) :
  response rt (trace (gen t rt p)) = Some res ->
  ok res = true -> json res = Some parsed ->
  message_content parsed = Some (JString s) -> s <> [] ->
  (forall before after : jsstring,
      leftmost marker s before after ->
      outcome (gen t rt p) = inr (before ++ after))
  /\ (~ occurs marker s -> outcome (gen t rt p) = inr s)
  /\ (exists r : jsstring,
        outcome (gen t rt p) = inr r
        /\ (length r = length s \/ length r + length marker = length s)%nat).
Proof.
  intros Hres Hok Hjson Hm Hs.
  destruct (content_priority env parseInt parseFloat t rt p res parsed
              Hres Hok Hjson) as (Hmsg & _).
  destruct (Hmsg s Hm Hs) as (Hout & _). rewrite Hout.
  split; [|split].
  - intros before after Hl.
    by rewrite (replace_first_leftmost marker [] s before after Hl).
  - intros Hno. by rewrite replace_first_absent.
  - eexists. split; [done|]. apply replace_first_length.
Qed.

(** The check for an empty content comes before the removal of the marker:
    the handler returns the empty string exactly when [message.content] is
    the bare marker. *)
Theorem empty_text_iff_bare_marker t rt p res (parsed : json_value)
    (s : jsstring) :
  response rt (trace (gen t rt p)) = Some res ->
  ok res = true -> json res = Some parsed ->
  message_content parsed = Some (JString s) -> s <> [] ->
  outcome (gen t rt p) = inr [] <-> s = marker.
Proof.
  intros Hres Hok Hjson Hm Hs.
  destruct (content_priority env parseInt parseFloat t rt p res parsed
              Hres Hok Hjson) as (Hmsg & _).
  destruct (Hmsg s Hm Hs) as (Hout & _). rewrite Hout. split.
  - intros [= Hr]. by destruct (replace_first_nil marker s Hr).
  - intros ->. reflexivity.
Qed.

(** A returned text always stems from a success response with a JSON body:
    it is a non-empty string found in [message.content], or in
    [delta.content] when [message.content] is falsy, less the first
    marker. *)
Theorem returned_text_provenance t rt p (s : jsstring) :
  outcome (gen t rt p) = inr s ->
  exists res (parsed : json_value) (c : jsstring),
    response rt (trace (gen t rt p)) = Some res
    /\ ok res = true /\ json res = Some parsed
    /\ c <> [] /\ s = replace_first marker [] c
    /\ (message_content parsed = Some (JString c)
        \/ truthy (message_content parsed) = false
           /\ delta_content parsed = Some (JString c)).
Proof.
  intros Hs.
  destruct (endpoint_cases env rt) as [(e & He & Hne) | (H1 & H2)].
  - destruct (gen_resolved env parseInt parseFloat t rt p e He Hne)
      as (init & Hg & _).
    cbv zeta in Hg. rewrite Hg in Hs |- *. cbn [outcome snd] in Hs.
    set (res := fetch rt (strip_trailing_slash e ++ js "/llm") init) in *.
    exists res.
    destruct (handle_response_cases res)
      as [(_ & Hh) | [(_ & _ & Hh) | (parsed & Hok & Hj & _ & Hout)]];
      [by rewrite Hh in Hs | by rewrite Hh in Hs |].
    rewrite Hout in Hs. exists parsed.
    destruct (extract_text_cases parsed)
      as [(c & Hm & Hc & Hx) | [(c & Hm & Hd & Hc & Hx)
          | [(_ & _ & Hx) | (_ & Hx)]]].
    + rewrite Hx in Hs. injection Hs as <-. exists c. by repeat split; auto.
    + rewrite Hx in Hs. injection Hs as <-. exists c. by repeat split; auto.
    + by rewrite Hx in Hs.
    + by rewrite Hx in Hs.
  - by rewrite (gen_unresolved env parseInt parseFloat t rt p H1 H2) in Hs.
Qed.

(** A success response whose body is not JSON makes the handler throw the
    [SyntaxError] of [res.json()]; the one request is not sent again. *)
Theorem non_json_body_throws_SyntaxError t rt p res :
  response rt (trace (gen t rt p)) = Some res ->
  ok res = true -> json res = None ->
  outcome (gen t rt p) = inl SyntaxError
  /\ length (requests (trace (gen t rt p))) = 1%nat.
Proof.
  intros Hres Hok Hjson.
  destruct (gen_response env parseInt parseFloat t rt p res Hres)
    as (Hout & url & init & Htr).
  rewrite Hout, Htr. cbn [requests]. rewrite handle_response_requests.
  split; [|done].
  destruct (handle_response_cases res)
    as [(Hno & _) | [(_ & _ & Hh) | (v & _ & Hv & _)]];
    [congruence | by rewrite Hh | congruence].
Qed.

Lemma extract_text_non_string (parsed v : json_value) :
  message_content parsed = Some v -> truthy v = true ->
  (forall s : jsstring, v <> JString s) ->
  extract_text parsed
  = ([], inl (TypeError (js "content.replace is not a function"))).
Proof.
  intros Hm Ht Hv. unfold extract_text. fold (message_content parsed).
  rewrite Hm. change (truthy (Some v)) with (truthy v). rewrite Ht.
  cbn [negb andb]. unfold mbind, IO_bind, mret, IO_ret.
  change (truthy (Some v)) with (truthy v). rewrite Ht. cbn [negb app].
  destruct v as [| b | x | s | xs | ms]; try done. by destruct (Hv s).
Qed.

(** A [message.content] that is truthy but not a string (a number, [true],
    an array, an object) is not rejected as an invalid format: the handler
    throws the [TypeError] of the call of [replace], and [delta.content] is
    not consulted. *)
Theorem non_string_content_throws_TypeError t rt p res
    (parsed v : json_value) :
  response rt (trace (gen t rt p)) = Some res ->
  ok res = true -> json res = Some parsed ->
  message_content parsed = Some v -> truthy v = true ->
  (forall s : jsstring, v <> JString s) ->
  outcome (gen t rt p)
    = inl (TypeError (js "content.replace is not a function"))
  /\ ~ used_delta (trace (gen t rt p)).
Proof.
  intros Hres Hok Hjson Hm Ht Hv.
  destruct (gen_success env parseInt parseFloat t rt p res parsed
              Hres Hok Hjson) as (Hout & Hused).
  rewrite Hout, Hused, (extract_text_non_string parsed v Hm Ht Hv).
  split; [done|]. unfold used_delta. cbn. tauto.
Qed.

(** A success response without a first choice (a body that is [null], has
    no [choices], or has an empty or [null]-headed [choices]) ends in the
    invalid-format error. *)
Theorem no_first_choice_is_invalid_format t rt p res (parsed : json_value) :
  response rt (trace (gen t rt p)) = Some res ->
  ok res = true -> json res = Some parsed ->
  first_choice parsed = None \/ first_choice parsed = Some JNull ->
  exists err, outcome (gen t rt p) = inl err /\ UpstreamError_format err.
Proof.
  intros Hres Hok Hjson Hc.
  destruct (content_priority env parseInt parseFloat t rt p res parsed
              Hres Hok Hjson) as (_ & _ & Hnone).
  apply Hnone; unfold message_content, delta_content;
    fold (first_choice parsed); by destruct Hc as [-> | ->].
Qed.

(** The one request of a handler, written out. *)
Lemma gen_requests_explicit t rt p (e : jsstring) :
  or_else (env !! "LIVEPEER_GATEWAY_URL")
          (getSetting rt "LIVEPEER_GATEWAY_URL") = Some e ->
  e <> [] ->
  requests (trace (gen t rt p)) =
  [(strip_trailing_slash e ++ js "/llm",
    {| method := js "POST";
       headers := [
         ("accept", js "application/json");
         ("Content-Type", js "application/json");
         ("Authorization",
           js "Bearer " ++
           or_default
             (or_else (env !! "LIVEPEER_API_KEY")
                      (getSetting rt "LIVEPEER_API_KEY"))
             (js "ElizaV2-llm-default")) ];
       body := {|
         Body.model :=
           or_default
             (or_else (env !! "LIVEPEER_LARGE_MODEL") (env !! "LIVEPEER_MODEL"))
             (js "meta-llama/Meta-Llama-3.1-8B-Instruct");
         Body.messages := [
           {| Body.role := Body.system;
              Body.content :=
                or_default (character_system rt)
                  (js "You are a helpful assistant powered by Livepeer Gateway") |};
           {| Body.role := Body.user; Body.content := prompt p |} ];
         Body.max_tokens :=
           or_default (maxTokens p)
             (env_number env "LIVEPEER_MAX_TOKENS" parseInt
                (match t with TEXT_SMALL => 512 | TEXT_LARGE => 2048 end));
         Body.temperature :=
           or_default (temperature p)
             (env_number env "LIVEPEER_TEMPERATURE" parseFloat 0.6);
         Body.stream := false |} |})].
Proof.
  intros He Hne. rewrite gen_call.
  match goal with
  | |- context [callLivepeerLLM _ _ _ rt ?q] =>
      pose proof (call_resolved env parseInt parseFloat rt q e He Hne) as Hc
  end.
  cbv zeta in Hc. rewrite Hc. cbn [trace fst requests].
  by rewrite handle_response_requests.
Qed.

(** The wire format of every request: exactly the three headers, the two
    JSON ones fixed; exactly two messages, the persona of the character (the
    generic assistant text when the persona is missing or empty) as system
    message and then the prompt, unchanged, as user message; never a
    streamed completion. *)
Theorem request_wire_format t rt p (url : jsstring) (init : RequestInit) :
  In (Fetch url init) (trace (gen t rt p)) ->
  length (headers init) = 3%nat
  /\ header "accept" (headers init) = Some (js "application/json")
  /\ header "Content-Type" (headers init) = Some (js "application/json")
  /\ (exists persona : jsstring,
        Body.messages (body init) = [
          {| Body.role := Body.system; Body.content := persona |};
          {| Body.role := Body.user; Body.content := prompt p |} ]
        /\ persona <> []
        /\ (character_system rt = Some persona
            \/ truthy (character_system rt) = false
               /\ persona
                  = js "You are a helpful assistant powered by Livepeer Gateway"))
  /\ Body.stream (body init) = false.
Proof.
  intros Hin. apply In_requests in Hin.
  destruct (endpoint_cases env rt) as [(e & He & Hne) | (H1 & H2)].
  - rewrite (gen_requests_explicit t rt p e He Hne) in Hin.
    destruct Hin as [Heq | []]. injection Heq as <- <-. cbn [headers body].
    repeat split; try done.
    eexists. split; [reflexivity|]. unfold or_default.
    destruct (character_system rt) as [[|c s]|]; cbn; split; auto; done.
  - rewrite (gen_unresolved env parseInt parseFloat t rt p H1 H2) in Hin.
    destruct Hin.
Qed.

(** The large handler is the plain call, for every parameter object whose
    numbers are absent or truthy: the fallbacks of the handler are those of
    the default parameters of [callLivepeerLLM]. *)
Theorem large_handler_is_the_call rt p :
  maxTokens p = None \/ truthy (maxTokens p) = true ->
  temperature p = None \/ truthy (temperature p) = true ->
  generate env parseInt parseFloat TEXT_LARGE rt p
  = callLivepeerLLM env parseInt parseFloat rt p.
Proof.
  intros Hm Hx.
  assert (forall d, or_default (maxTokens p) d = nullish_default (maxTokens p) d)
    as Em.
  { intros d. destruct Hm as [-> | Hm]; [done|].
    destruct (maxTokens p) as [m|]; [|done].
    unfold or_default. cbn in Hm. unfold truthy in Hm |- *. by rewrite Hm. }
  assert (forall d, or_default (temperature p) d = nullish_default (temperature p) d)
    as Ex.
  { intros d. destruct Hx as [-> | Hx]; [done|].
    destruct (temperature p) as [x|]; [|done].
    unfold or_default. cbn in Hx. unfold truthy in Hx |- *. by rewrite Hx. }
  unfold generate, handler_TEXT_LARGE, callLivepeerLLM.
  cbn [prompt maxTokens temperature nullish_default]. by rewrite Em, Ex.
Qed.

(** When the project agent loads the plugin, that is when
    LIVEPEER_GATEWAY_URL is set and non-empty, and the environment stays as
    it was, no call fails with the configuration error: whatever the runtime
    settings, exactly one request goes to the gateway of the environment. *)
Theorem loaded_plugin_has_endpoint t rt p :
  In livepeerPlugin (projectAgent_plugins env) ->
  exists e : jsstring,
    env !! "LIVEPEER_GATEWAY_URL" = Some e
    /\ map fst (requests (trace (gen t rt p)))
       = [strip_trailing_slash e ++ js "/llm"]
    /\ ~ (exists err, outcome (gen t rt p) = inl err /\ ConfigurationError err).
Proof.
  unfold projectAgent_plugins. intros Hin.
  destruct (truthy (env !! "LIVEPEER_GATEWAY_URL")) eqn:Ht; [|destruct Hin].
  destruct (env !! "LIVEPEER_GATEWAY_URL") as [[|c e]|] eqn:He;
    try discriminate Ht.
  assert (or_else (env !! "LIVEPEER_GATEWAY_URL")
                  (getSetting rt "LIVEPEER_GATEWAY_URL") = Some (c :: e))
    as Hor by (unfold or_else; by rewrite He).
  exists (c :: e). split; [done|]. split.
  - by rewrite (gen_requests_explicit t rt p (c :: e) Hor).
  - intros (err & Hout & Herr). red in Herr. subst err.
    destruct (gen_resolved env parseInt parseFloat t rt p (c :: e) Hor)
      as (init & Hg & _); [done|].
    cbv zeta in Hg. rewrite Hg in Hout. cbn [outcome snd] in Hout.
    destruct (handle_response_cases
                (fetch rt (strip_trailing_slash (c :: e) ++ js "/llm") init))
      as [(_ & Hh) | [(_ & _ & Hh) | (parsed & _ & _ & _ & Hx)]].
    + rewrite Hh in Hout. vm_compute in Hout. discriminate Hout.
    + rewrite Hh in Hout. discriminate Hout.
    + rewrite Hx in Hout.
      destruct (extract_text_cases parsed)
        as [(s & _ & _ & Hy) | [(s & _ & _ & _ & Hy)
            | [(_ & _ & Hy) | (_ & Hy)]]];
        rewrite Hy in Hout; discriminate Hout.
Qed.

End Further.

(** ** No retry *)

(** A call ends in one of two ways. Without an endpoint it throws the
    configuration error and leaves an empty trace. With an endpoint it sends
    exactly one request, whatever the gateway answers (a failure status, a
    body that is not JSON, a body without text), and it does not end in the
    configuration error. *)
Theorem one_request_or_configuration_error
    (env : gmap string jsstring) (parseInt parseFloat : jsstring -> float)
    (t : TextModelType) (rt : IAgentRuntime) (p : GenerateTextParams) :
  let m := generate env parseInt parseFloat t rt p in
  (trace m = [] /\ exists err, outcome m = inl err /\ ConfigurationError err)
  \/ (length (requests (trace m)) = 1%nat
      /\ ~ (exists err, outcome m = inl err /\ ConfigurationError err)).
Proof.
  cbv zeta.
  destruct (endpoint_cases env rt) as [(e & He & Hne) | (H1 & H2)].
  - right. rewrite (gen_requests_explicit env parseInt parseFloat t rt p e He Hne).
    split; [done|].
    intros (err & Hout & Herr). red in Herr. subst err.
    destruct (gen_resolved env parseInt parseFloat t rt p e He Hne)
      as (init & Hg & _).
    cbv zeta in Hg. rewrite Hg in Hout. cbn [outcome snd] in Hout.
    destruct (handle_response_cases
                (fetch rt (strip_trailing_slash e ++ js "/llm") init))
      as [(_ & Hh) | [(_ & _ & Hh) | (parsed & _ & _ & _ & Hx)]].
    + rewrite Hh in Hout. vm_compute in Hout. discriminate Hout.
    + rewrite Hh in Hout. discriminate Hout.
    + rewrite Hx in Hout.
      destruct (extract_text_cases parsed)
        as [(s & _ & _ & Hy) | [(s & _ & _ & _ & Hy)
            | [(_ & _ & Hy) | (_ & Hy)]]];
        rewrite Hy in Hout; discriminate Hout.
  - left. rewrite (gen_unresolved env parseInt parseFloat t rt p H1 H2).
    split; [done|]. by eexists.
Qed.

(** ** What the environment can and cannot change *)

(** The adapter reads six variables of the environment. Setting any other
    variable changes nothing of a call: not its trace, not its outcome. *)
Theorem other_variables_are_not_read (env : gmap string jsstring)
    (parseInt parseFloat : jsstring -> float) (t : TextModelType)
    (rt : IAgentRuntime) (p : GenerateTextParams)
    (name : string) (value : jsstring) :
  ~ In name ["LIVEPEER_GATEWAY_URL"; "LIVEPEER_API_KEY"; "LIVEPEER_MODEL";
             "LIVEPEER_LARGE_MODEL"; "LIVEPEER_MAX_TOKENS";
             "LIVEPEER_TEMPERATURE"] ->
  generate (<[name := value]> env) parseInt parseFloat t rt p
  = generate env parseInt parseFloat t rt p.
Proof.
  intros Hname. cbn [In] in Hname.
  destruct t; unfold generate, handler_TEXT_SMALL, handler_TEXT_LARGE,
    callLivepeerLLM, env_number;
    rewrite !lookup_insert_ne by (intros ->; tauto); reflexivity.
Qed.

(** The API key goes into the Authorization header and nowhere else: two
    environments that differ in LIVEPEER_API_KEY only, under runtimes with
    the same gateway setting and persona, give the same URL and the same
    request body. *)
Theorem api_key_stays_in_header (env env' : gmap string jsstring)
    (parseInt parseFloat : jsstring -> float) (t : TextModelType)
    (rt rt' : IAgentRuntime) (p : GenerateTextParams) :
  (forall name : string, name <> "LIVEPEER_API_KEY" -> env' !! name = env !! name) ->
  getSetting rt' "LIVEPEER_GATEWAY_URL" = getSetting rt "LIVEPEER_GATEWAY_URL" ->
  character_system rt' = character_system rt ->
  map fst (requests (trace (generate env' parseInt parseFloat t rt' p)))
    = map fst (requests (trace (generate env parseInt parseFloat t rt p)))
  /\ sent_body (trace (generate env' parseInt parseFloat t rt' p))
     = sent_body (trace (generate env parseInt parseFloat t rt p)).
Proof.
  intros Henv Hset Hsys.
  assert (or_else (env' !! "LIVEPEER_GATEWAY_URL")
                  (getSetting rt' "LIVEPEER_GATEWAY_URL")
          = or_else (env !! "LIVEPEER_GATEWAY_URL")
                    (getSetting rt "LIVEPEER_GATEWAY_URL")) as Hor
    by (by rewrite Henv, Hset).
  destruct (endpoint_cases env rt) as [(e & He & Hne) | (H1 & H2)].
  - unfold sent_body.
    rewrite (gen_requests_explicit env parseInt parseFloat t rt p e He Hne).
    rewrite <- Hor in He.
    rewrite (gen_requests_explicit env' parseInt parseFloat t rt' p e He Hne).
    cbn [map fst body]. unfold env_number.
    by rewrite !Henv, Hsys.
  - unfold sent_body.
    rewrite (gen_unresolved env parseInt parseFloat t rt p H1 H2).
    rewrite (gen_unresolved env' parseInt parseFloat t rt' p);
      [done | by rewrite Henv | by rewrite Hset].
Qed.

(** ** More on the placeholder embedding *)

(** What the handler does with a text that is not blank. *)
Lemma embed_nonblank (rt : IAgentRuntime) (p : TextEmbeddingInput)
    (s : jsstring) :
  input_text p = Some s -> ~ whitespace_only s ->
  handler_TEXT_EMBEDDING rt p
  = ([Log debug (js "Generated placeholder embedding (local, matched): ")],
     inr (accumulate s 0 zeros)).
Proof.
  intros Hp Hw.
  assert (truthy (trim s) = true) as Ht.
  { destruct (truthy (trim s)) eqn:E; [done|]. by apply truthy_trim in E. }
  assert (s <> []) as Hs by (intros ->; apply Hw; constructor).
  unfold handler_TEXT_EMBEDDING.
  destruct p as [|s'|[[s'|]|]]; try done; injection Hp as ->.
  - destruct s as [|c s]; [done|].
    cbn [truthy truthy_input truthy_string negb orb]. by rewrite Ht.
  - cbn [truthy truthy_input negb orb nullish_default]. by rewrite Ht.
Qed.



(** A string and an object that carries the same string as [text] are
    embedded alike, also when the string is empty or blank. *)
Theorem string_and_object_embed_alike (rt : IAgentRuntime) (s : jsstring) :
  handler_TEXT_EMBEDDING rt (EmbedObject (Some (Some s)))
  = handler_TEXT_EMBEDDING rt (EmbedString s).
Proof. by destruct s. Qed.

(** A text of at most 384 code units that is not blank is embedded
    character by character: entry [j] is exactly the float
    [charCode(j) / 65535], and the entries behind the text are zero. *)
Theorem short_text_embedding (rt : IAgentRuntime) (p : TextEmbeddingInput)
    (s : jsstring) :
  input_text p = Some s -> ~ whitespace_only s ->
  (length s <= 384)%nat -> Forall (fun c => (c < 65536)%N) s ->
  outcome (handler_TEXT_EMBEDDING rt p)
  = inr (((fun c => (charCode c / 65535)%float) <$> s)
           ++ replicate (384 - length s) 0%float).
Proof.
  intros Hp Hw Hlen Hunits. rewrite (embed_nonblank rt p s Hp Hw).
  cbn [outcome snd]. rewrite accumulate_zeros.
  by rewrite (embedding_short_text s Hlen Hunits).
Qed.

(** The loop only sees the index modulo 384. *)
Lemma accumulate_mod (text : jsstring) (i i' : nat) (vec : list float) :
  (i mod DIMS = i' mod DIMS)%nat ->
  accumulate text i vec = accumulate text i' vec.
Proof.
  revert i i' vec. induction text as [|c text IH]; intros i i' vec H; [done|].
  cbn [accumulate]. rewrite H. apply IH.
  change (S i) with (1 + i)%nat. change (S i') with (1 + i')%nat.
  rewrite (Nat.Div0.add_mod 1 i), (Nat.Div0.add_mod 1 i'). by rewrite H.
Qed.

Lemma accumulate_app (s1 s2 : jsstring) (i : nat) (vec : list float) :
  accumulate (s1 ++ s2) i vec
  = accumulate s2 (i + length s1) (accumulate s1 i vec).
Proof.
  revert i vec. induction s1 as [|c s1 IH]; intros i vec.
  - cbn. by rewrite Nat.add_0_r.
  - cbn [app accumulate length]. rewrite IH. f_equal. lia.
Qed.

(** The index wraps around: behind a first block of 384 code units, the
    rest of the text is added onto the embedding of that block, from entry
    0 on. *)
Theorem embedding_wraps_around (rt : IAgentRuntime) (s1 s2 : jsstring)
    (v1 : list float) :
  ~ whitespace_only s1 -> length s1 = 384%nat ->
  outcome (handler_TEXT_EMBEDDING rt (EmbedString s1)) = inr v1 ->
  outcome (handler_TEXT_EMBEDDING rt (EmbedString (s1 ++ s2)))
  = inr (accumulate s2 0 v1).
Proof.
  intros Hw Hlen Hv1.
  rewrite (embed_nonblank rt (EmbedString s1) s1 eq_refl Hw) in Hv1.
  injection Hv1 as <-.
  rewrite (embed_nonblank rt (EmbedString (s1 ++ s2)) (s1 ++ s2) eq_refl).
  - cbn [outcome snd]. rewrite accumulate_app. f_equal.
    apply accumulate_mod. by rewrite Nat.add_0_l, Hlen.
  - intros Hall. apply Hw. unfold whitespace_only in *.
    by apply Forall_app in Hall as [H1 _].
Qed.

(** ** The plugins of the project *)

(** Case analysis on the seven variables [character.plugins] reads. *)
Ltac plugin_cases env :=
  unfold character_plugins, projectAgent_plugins;
  destruct (truthy (env !! "OPENAI_API_KEY")),
           (truthy (env !! "ANTHROPIC_API_KEY")),
           (truthy (env !! "LIVEPEER_GATEWAY_URL")),
           (truthy (env !! "DISCORD_API_TOKEN")),
           (truthy (env !! "TWITTER_USERNAME")),
           (truthy (env !! "TELEGRAM_BOT_TOKEN")),
           (truthy (env !! "IGNORE_BOOTSTRAP")).

(** Whatever the environment, the list of the character's plugins names no
    plugin twice, has between one and seven names, and starts with the SQL
    plugin. *)
Theorem character_plugins_wellformed (env : gmap string jsstring) :
  NoDup (character_plugins env)
  /\ (1 <= length (character_plugins env) <= 7)%nat
  /\ head (character_plugins env) = Some "@elizaos/plugin-sql".
Proof.
  plugin_cases env; cbn [negb andb app];
    (split; [by apply (bool_decide_unpack _) | split; [cbn; lia | done]]).
Qed.

(** The local model is the fallback of last resort: it is loaded exactly
    when the environment names no OpenAI key, no Anthropic key and no
    Livepeer gateway, and then neither of the two hosted plugins is loaded
    nor does the project agent load the Livepeer plugin. *)
Theorem local_ai_is_the_last_resort (env : gmap string jsstring) :
  (In "@elizaos/plugin-local-ai" (character_plugins env)
   <-> truthy (env !! "OPENAI_API_KEY") = false
       /\ truthy (env !! "ANTHROPIC_API_KEY") = false
       /\ truthy (env !! "LIVEPEER_GATEWAY_URL") = false)
  /\ (In "@elizaos/plugin-local-ai" (character_plugins env) ->
      ~ In "@elizaos/plugin-openai" (character_plugins env)
      /\ ~ In "@elizaos/plugin-anthropic" (character_plugins env)
      /\ projectAgent_plugins env = []).
Proof.
  plugin_cases env; cbn; intuition discriminate.
Qed.

(** Every environment leaves the agent with a model provider: the OpenAI
    plugin, the Anthropic plugin, the local model, or the Livepeer plugin
    of the project agent. *)
Theorem some_model_provider_is_loaded (env : gmap string jsstring) :
  In "@elizaos/plugin-openai" (character_plugins env)
  \/ In "@elizaos/plugin-anthropic" (character_plugins env)
  \/ In "@elizaos/plugin-local-ai" (character_plugins env)
  \/ In livepeerPlugin (projectAgent_plugins env).
Proof.
  plugin_cases env; cbn; tauto.
Qed.

(** The bootstrap plugin is loaded unless IGNORE_BOOTSTRAP is set and
    non-empty, and it then comes last. *)
Theorem bootstrap_unless_ignored (env : gmap string jsstring) :
  (In "@elizaos/plugin-bootstrap" (character_plugins env)
   <-> truthy (env !! "IGNORE_BOOTSTRAP") = false)
  /\ (truthy (env !! "IGNORE_BOOTSTRAP") = false ->
      last (character_plugins env) = Some "@elizaos/plugin-bootstrap").
Proof.
  plugin_cases env; cbn; intuition discriminate.
Qed.

(** ** The prompt in the log *)

(** The prompt is logged in full when it has at most 100 code units;
    a longer prompt is cut to its first 100 code units and three dots, 103
    code units in all. *)
Theorem userPrompt_bounds (prompt : jsstring) :
  (length (userPrompt prompt) <= 103)%nat
  /\ take 100 (userPrompt prompt) = take 100 prompt
  /\ ((length prompt <= 100)%nat -> userPrompt prompt = prompt)
  /\ ((100 < length prompt)%nat ->
      length (userPrompt prompt) = 103%nat
      /\ drop 100 (userPrompt prompt) = js "...").
Proof.
  unfold userPrompt.
  destruct (Nat.ltb_spec 100 (length prompt)) as [Hlong | Hshort].
  - assert (length (take 100 prompt) = 100%nat) as Hl
      by (rewrite length_take; lia).
    repeat split.
    + rewrite length_app, Hl. cbn. lia.
    + by rewrite take_app_length'.
    + lia.
    + rewrite length_app, Hl. by cbn.
    + by rewrite drop_app_length'.
  - rewrite app_nil_r, !take_ge by lia. repeat split; intros; try done; lia.
Qed.

(** ** Sample runs of the further properties *)

Section Witnesses.

Import Sample Hosts.

Local Abbreviation run env := (generate env parseDigits parseDigits).

(** The marker inside "Hello <marker>world". *)
Lemma marker_first_occurrence_removed_witness :
  (forall before after : jsstring,
      leftmost marker marked_text before after ->
      outcome (run gateway_env TEXT_LARGE (answering marked) (ask "hi"))
        = inr (before ++ after))
  /\ (~ occurs marker marked_text ->
      outcome (run gateway_env TEXT_LARGE (answering marked) (ask "hi"))
        = inr marked_text)
  /\ (exists r : jsstring,
        outcome (run gateway_env TEXT_LARGE (answering marked) (ask "hi")) = inr r
        /\ (length r = length marked_text
            \/ length r + length marker = length marked_text)%nat).
Proof.
  apply (marker_first_occurrence_removed gateway_env parseDigits parseDigits
           TEXT_LARGE (answering marked) (ask "hi") marked
           (JObject [(js "choices", JArray [with_message marked_text])])
           marked_text); [reflexivity.. | discriminate].
Defined.

(** A content that is the marker and nothing else. *)
Lemma empty_text_iff_bare_marker_witness :
  outcome (run gateway_env TEXT_SMALL
             (answering (completion (with_message marker))) (ask "hi"))
    = inr []
  <-> marker = marker.
Proof.
  apply (empty_text_iff_bare_marker gateway_env parseDigits parseDigits
           TEXT_SMALL (answering (completion (with_message marker)))
           (ask "hi") (completion (with_message marker))
           (JObject [(js "choices", JArray [with_message marker])])
           marker); [reflexivity.. | discriminate].
Defined.

(** The run that returns "Hello". *)
Lemma returned_text_provenance_witness :
  exists res (parsed : json_value) (c : jsstring),
    response (answering hello)
      (trace (run gateway_env TEXT_SMALL (answering hello) (ask "hi")))
      = Some res
    /\ ok res = true /\ json res = Some parsed
    /\ c <> [] /\ js "Hello" = replace_first marker [] c
    /\ (message_content parsed = Some (JString c)
        \/ truthy (message_content parsed) = false
           /\ delta_content parsed = Some (JString c)).
Proof.
  apply (returned_text_provenance gateway_env parseDigits parseDigits
           TEXT_SMALL (answering hello) (ask "hi") (js "Hello")).
  reflexivity.
Defined.

(** A gateway that answers with an HTML page. *)
Lemma non_json_body_throws_SyntaxError_witness :
  outcome (run gateway_env TEXT_SMALL (answering html_page) (ask "hi"))
    = inl SyntaxError
  /\ length (requests
               (trace (run gateway_env TEXT_SMALL (answering html_page)
                         (ask "hi")))) = 1%nat.
Proof.
  apply (non_json_body_throws_SyntaxError gateway_env parseDigits parseDigits
           TEXT_SMALL (answering html_page) (ask "hi") html_page);
    reflexivity.
Defined.

(** A completion whose content is the number 5. *)
Lemma non_string_content_throws_TypeError_witness :
  outcome (run gateway_env TEXT_SMALL
             (answering (completion numeric_content)) (ask "hi"))
    = inl (TypeError (js "content.replace is not a function"))
  /\ ~ used_delta
         (trace (run gateway_env TEXT_SMALL
                   (answering (completion numeric_content)) (ask "hi"))).
Proof.
  apply (non_string_content_throws_TypeError gateway_env parseDigits
           parseDigits TEXT_SMALL (answering (completion numeric_content))
           (ask "hi") (completion numeric_content)
           (JObject [(js "choices", JArray [numeric_content])])
           (JNumber 5)); [reflexivity.. | discriminate].
Defined.

(** A body with an empty list of choices. *)
Lemma no_first_choice_is_invalid_format_witness :
  exists err,
    outcome (run gateway_env TEXT_SMALL (answering no_choices) (ask "hi"))
      = inl err
    /\ UpstreamError_format err.
Proof.
  apply (no_first_choice_is_invalid_format gateway_env parseDigits parseDigits
           TEXT_SMALL (answering no_choices) (ask "hi") no_choices
           (JObject [(js "choices", JArray [])])); [reflexivity.. |].
  left. reflexivity.
Defined.

(** The request of a character with a persona. *)
Lemma request_wire_format_witness :
  exists url init,
    In (Fetch url init)
       (trace (run gateway_env TEXT_SMALL (persona hello) (ask "hi")))
    /\ length (headers init) = 3%nat
    /\ header "accept" (headers init) = Some (js "application/json")
    /\ header "Content-Type" (headers init) = Some (js "application/json")
    /\ (exists who : jsstring,
          Body.messages (body init) = [
            {| Body.role := Body.system; Body.content := who |};
            {| Body.role := Body.user; Body.content := prompt (ask "hi") |} ]
          /\ who <> []
          /\ (character_system (persona hello) = Some who
              \/ truthy (character_system (persona hello)) = false
                 /\ who
                    = js "You are a helpful assistant powered by Livepeer Gateway"))
    /\ Body.stream (body init) = false.
Proof.
  assert (In (Fetch (js "http://gateway.example/llm")
                {| method := js "POST";
                   headers := [("accept", js "application/json");
                               ("Content-Type", js "application/json");
                               ("Authorization", js "Bearer ElizaV2-llm-default")];
                   body := {|
                     Body.model := js "meta-llama/Meta-Llama-3.1-8B-Instruct";
                     Body.messages := [
                       {| Body.role := Body.system;
                          Body.content := js "You are Eliza." |};
                       {| Body.role := Body.user; Body.content := js "hi" |}];
                     Body.max_tokens := 512;
                     Body.temperature := 0.6;
                     Body.stream := false |} |})
             (trace (run gateway_env TEXT_SMALL (persona hello) (ask "hi"))))
    as Hin by (vm_compute; tauto).
  eexists _, _. split; [exact Hin|].
  exact (request_wire_format gateway_env parseDigits parseDigits TEXT_SMALL
           (persona hello) (ask "hi") _ _ Hin).
Defined.

(** The large handler and the plain call, without numeric arguments. *)
Lemma large_handler_is_the_call_witness :
  run gateway_env TEXT_LARGE (answering hello) (ask "hi")
  = callLivepeerLLM gateway_env parseDigits parseDigits (answering hello)
      (ask "hi").
Proof.
  apply (large_handler_is_the_call gateway_env parseDigits parseDigits
           (answering hello) (ask "hi")); left; reflexivity.
Defined.

(** The project under [gateway_env], with a runtime that has a gateway
    setting of its own. *)
Lemma loaded_plugin_has_endpoint_witness :
  exists e : jsstring,
    gateway_env !! "LIVEPEER_GATEWAY_URL" = Some e
    /\ map fst (requests
                  (trace (run gateway_env TEXT_SMALL (with_settings hello)
                            (ask "hi"))))
       = [strip_trailing_slash e ++ js "/llm"]
    /\ ~ (exists err,
            outcome (run gateway_env TEXT_SMALL (with_settings hello) (ask "hi"))
              = inl err
            /\ ConfigurationError err).
Proof.
  apply (loaded_plugin_has_endpoint gateway_env parseDigits parseDigits
           TEXT_SMALL (with_settings hello) (ask "hi")).
  vm_compute. tauto.
Defined.

(** Setting HOME changes nothing. *)
Lemma other_variables_are_not_read_witness :
  run home_env TEXT_SMALL (answering hello) (ask "hi")
  = run gateway_env TEXT_SMALL (answering hello) (ask "hi").
Proof.
  apply (other_variables_are_not_read gateway_env parseDigits parseDigits
           TEXT_SMALL (answering hello) (ask "hi") "HOME" (js "/root")).
  cbn [In]. intros H. repeat (destruct H as [H | H]; [discriminate H|]).
  exact H.
Defined.

(** With and without an API key in the environment. *)
Lemma api_key_stays_in_header_witness :
  map fst (requests (trace (run keyed_env TEXT_SMALL (answering hello) (ask "hi"))))
    = map fst (requests (trace (run gateway_env TEXT_SMALL (answering hello)
                                  (ask "hi"))))
  /\ sent_body (trace (run keyed_env TEXT_SMALL (answering hello) (ask "hi")))
     = sent_body (trace (run gateway_env TEXT_SMALL (answering hello) (ask "hi"))).
Proof.
  apply (api_key_stays_in_header gateway_env keyed_env parseDigits parseDigits
           TEXT_SMALL (answering hello) (answering hello) (ask "hi"));
    [|reflexivity..].
  intros name Hname. unfold keyed_env. apply lookup_insert_ne. congruence.
Defined.

(** The text "Hi" in an object. *)
Lemma short_text_embedding_witness :
  outcome (handler_TEXT_EMBEDDING (answering hello)
             (EmbedObject (Some (Some (js "Hi")))))
  = inr (((fun c => (charCode c / 65535)%float) <$> js "Hi")
           ++ replicate (384 - length (js "Hi")) 0%float).
Proof.
  apply (short_text_embedding (answering hello)
           (EmbedObject (Some (Some (js "Hi")))) (js "Hi")).
  - reflexivity.
  - intros H. inversion H as [|c l Hc Hl]. discriminate Hc.
  - vm_compute. lia.
  - repeat constructor.
Defined.

(** A block of 384 letters followed by "B". *)
Lemma embedding_wraps_around_witness :
  outcome (handler_TEXT_EMBEDDING (answering hello)
             (EmbedString (block ++ js "B")))
  = inr (accumulate (js "B") 0 (accumulate block 0 zeros)).
Proof.
  apply (embedding_wraps_around (answering hello) block (js "B")
           (accumulate block 0 zeros)).
  - intros H. inversion H as [|c l Hc Hl]. discriminate Hc.
  - reflexivity.
  - vm_compute. reflexivity.
Defined.

(** An environment without any provider. *)
Lemma local_ai_is_the_last_resort_witness :
  ~ In "@elizaos/plugin-openai" (character_plugins no_env)
  /\ ~ In "@elizaos/plugin-anthropic" (character_plugins no_env)
  /\ projectAgent_plugins no_env = [].
Proof.
  apply (proj2 (local_ai_is_the_last_resort no_env)).
  vm_compute. tauto.
Defined.

(** The bootstrap plugin under [hosted_env]. *)
Lemma bootstrap_unless_ignored_witness :
  last (character_plugins hosted_env) = Some "@elizaos/plugin-bootstrap".
Proof.
  apply (proj2 (bootstrap_unless_ignored hosted_env)). reflexivity.
Defined.

(** A prompt of 150 letters, and the prompt "hi". *)
Lemma userPrompt_bounds_witness :
  userPrompt (js "hi") = js "hi"
  /\ length (userPrompt long_prompt) = 103%nat
  /\ drop 100 (userPrompt long_prompt) = js "...".
Proof.
  split.
  - apply (proj1 (proj2 (proj2 (userPrompt_bounds (js "hi"))))).
    vm_compute. lia.
  - apply (proj2 (proj2 (proj2 (userPrompt_bounds long_prompt)))).
    vm_compute. lia.
Defined.

End Witnesses.
